(** * cornershop: fetch, flatten and export of grocery-search results

    A shallow embedding of the two scripts of the repository,
    [get_prices.py] and [src/get_json.py], and the properties of their
    flatteners, their safe navigation helper, their fetchers and their
    exporter.

    Python values are embedded as the tree [pyval]; a Python exception is
    the left-hand side of [result]; the file system, the log and the
    standard output are an explicit [world] threaded through the
    effectful functions. *)

From Stdlib Require Import List String Ascii ZArith Bool PrimFloat.
From Stdlib Require Import Lia.
Import ListNotations.
Local Open Scope string_scope.
Local Open Scope list_scope.
Set Warnings "-register-all".

(** ** Python values

    The values [json.loads] can build: [None], booleans, integers,
    floats, strings, lists and dictionaries. A dictionary keeps its
    insertion order, so it is an association list; the dictionaries the
    parser builds have no repeated key and [dict_lookup] reads the first
    binding of a key. *)

Inductive pyval : Type :=
| VNone
| VBool (b : bool)
| VInt (n : Z)
| VFloat (x : float)
| VStr (s : string)
| VList (items : list pyval)
| VDict (entries : list (string * pyval)).

(** ** Exceptions

    The exception classes the two scripts can meet. [JSONDecodeError] is
    the class [requests.exceptions.JSONDecodeError], which derives both
    from [RequestException] and from [ValueError]; it is what
    [response.json()] raises since requests 2.27, where older versions
    raise a plain [ValueError] of the json module. *)

Inductive exn : Type :=
| AttributeError (msg : string)
| TypeError (msg : string)
| ValueError (msg : string)
| HTTPError (status : Z)
| RequestException (msg : string)
| JSONDecodeError
| APIError (msg : string)
| OSError (msg : string).

Definition is_RequestException (e : exn) : bool :=
  match e with
  | HTTPError _ | RequestException _ | JSONDecodeError => true
  | _ => false
  end.

Definition is_HTTPError (e : exn) : bool :=
  match e with
  | HTTPError _ => true
  | _ => false
  end.

Definition is_ValueError (e : exn) : bool :=
  match e with
  | ValueError _ | JSONDecodeError => true
  | _ => false
  end.

(** ** The error monad: a value or a raised exception *)

Inductive result (A : Type) : Type :=
| Ok (a : A)
| Raise (e : exn).

Arguments Ok {A} a.
Arguments Raise {A} e.

Definition bind {A B : Type} (m : result A) (k : A -> result B) : result B :=
  match m with
  | Ok a => k a
  | Raise e => Raise e
  end.

Notation "x <- m ;; k" := (bind m (fun x => k))
  (at level 61, m at next level, right associativity).

Definition is_ok {A : Type} (m : result A) : bool :=
  match m with
  | Ok _ => true
  | Raise _ => false
  end.

(** [mapM f l]: the list [[f x for x in l]], stopping at the first
    exception. *)
Fixpoint mapM {A B : Type} (f : A -> result B) (l : list A) : result (list B) :=
  match l with
  | [] => Ok []
  | x :: rest =>
      y <- f x ;;
      ys <- mapM f rest ;;
      Ok (y :: ys)
  end.

(** [concat_mapM f l]: the list [[y for x in l for y in f x]], stopping
    at the first exception. *)
Fixpoint concat_mapM {A B : Type} (f : A -> result (list B)) (l : list A)
  : result (list B) :=
  match l with
  | [] => Ok []
  | x :: rest =>
      ys <- f x ;;
      zs <- concat_mapM f rest ;;
      Ok (ys ++ zs)
  end.

(** ** Primitive operations of Python on [pyval] *)

Fixpoint dict_lookup (key : string) (entries : list (string * pyval))
  : option pyval :=
  match entries with
  | [] => None
  | (k, v) :: rest => if String.eqb k key then Some v else dict_lookup key rest
  end.

Definition type_name (v : pyval) : string :=
  match v with
  | VNone => "NoneType"
  | VBool _ => "bool"
  | VInt _ => "int"
  | VFloat _ => "float"
  | VStr _ => "str"
  | VList _ => "list"
  | VDict _ => "dict"
  end.

Definition no_attribute_get (v : pyval) : exn :=
  AttributeError ("'" ++ type_name v ++ "' object has no attribute 'get'")%string.

Definition not_iterable (v : pyval) : exn :=
  TypeError ("'" ++ type_name v ++ "' object is not iterable")%string.

(** [v.get(key, default)]: only a dictionary has the method. *)
Definition py_get (v : pyval) (key : string) (default : pyval) : result pyval :=
  match v with
  | VDict entries =>
      match dict_lookup key entries with
      | Some x => Ok x
      | None => Ok default
      end
  | _ => Raise (no_attribute_get v)
  end.

Fixpoint chars (s : string) : list pyval :=
  match s with
  | EmptyString => []
  | String c rest => VStr (String c EmptyString) :: chars rest
  end.

(** [for x in v]: a list gives its items, a dictionary its keys, a
    string its characters; nothing else is iterable. *)
Definition py_iter (v : pyval) : result (list pyval) :=
  match v with
  | VList items => Ok items
  | VDict entries => Ok (map (fun kv => VStr (fst kv)) entries)
  | VStr s => Ok (chars s)
  | _ => Raise (not_iterable v)
  end.

Definition is_None (v : pyval) : bool :=
  match v with
  | VNone => true
  | _ => false
  end.

Definition is_list (v : pyval) : bool :=
  match v with
  | VList _ => true
  | _ => false
  end.

Definition is_dict (v : pyval) : bool :=
  match v with
  | VDict _ => true
  | _ => false
  end.

(** [bool(v)], as [not v] reads it. *)
Definition truthy (v : pyval) : bool :=
  match v with
  | VNone => false
  | VBool b => b
  | VInt n => negb (Z.eqb n 0)
  | VFloat x => negb (PrimFloat.eqb x 0%float)
  | VStr s => negb (String.eqb s "")
  | VList items => match items with [] => false | _ => true end
  | VDict entries => match entries with [] => false | _ => true end
  end.

(** ** The world outside the program

    What the scripts read from outside is an [env]: the answer of the
    search endpoint to a request, the clock (already formatted the way
    each call site formats it), and whether a directory creation or a
    file write fails. What they change is a [world]: directories, files,
    log records, lines printed and seconds slept. *)

Record response : Type := {
  status_code : Z;
  (* the body parsed as JSON, [None] when it is not valid JSON *)
  body : option pyval
}.

Inductive http_outcome : Type :=
| TransportError (msg : string)
| Responded (r : response).

Record env : Type := {
  http : string -> pyval -> string -> http_outcome;
  (* what [response.json()] raises on a body that is not JSON *)
  json_decode_error : exn;
  today : string;
  now : string;
  makedirs_fails : string -> option exn;
  write_fails : string -> option exn
}.

Inductive file_content : Type :=
| CsvFile (df : list pyval)
| ParquetFile (df : list pyval)
| JsonLinesFile (df : list pyval)
| JsonFile (data : pyval).

Inductive level : Type := INFO | WARNING | ERROR.

Record log_record : Type := {
  log_level : level;
  log_text : string;
  log_exn : option exn
}.

Record world : Type := {
  dirs : list string;
  files : list (string * file_content);
  log : list log_record;
  stdout : list string;
  slept : Z
}.

(** State and exceptions together: an exception keeps the changes made
    to the world before it was raised. *)
Definition M (A : Type) : Type := world -> result A * world.

Definition ret {A : Type} (a : A) : M A := fun w => (Ok a, w).

Definition raise {A : Type} (e : exn) : M A := fun w => (Raise e, w).

Definition bindM {A B : Type} (m : M A) (k : A -> M B) : M B :=
  fun w =>
    match m w with
    | (Ok a, w') => k a w'
    | (Raise e, w') => (Raise e, w')
    end.

Notation "x <~ m ;; k" := (bindM m (fun x => k))
  (at level 61, m at next level, right associativity).

(** [try: m except ... as err: handler err] *)
Definition catch {A : Type} (m : M A) (handler : exn -> M A) : M A :=
  fun w =>
    match m w with
    | (Ok a, w') => (Ok a, w')
    | (Raise e, w') => handler e w'
    end.

Definition lift {A : Type} (r : result A) : M A := fun w => (r, w).

Definition string_mem (s : string) (l : list string) : bool :=
  existsb (String.eqb s) l.

(** Neither script configures the logging module: the root logger keeps
    its default threshold, [WARNING], and a record below it is dropped. *)
Definition emitted (lv : level) : bool :=
  match lv with
  | INFO => false
  | WARNING | ERROR => true
  end.

(** [logging.info(text)], [logging.warning(text)], [logging.error(text)];
    [log] holds the records that are emitted. *)
Definition logging (lv : level) (text : string) (err : option exn) : M unit :=
  fun w =>
    (Ok tt,
     if emitted lv then
       {| dirs := dirs w; files := files w;
          log := log w ++ [{| log_level := lv; log_text := text; log_exn := err |}];
          stdout := stdout w; slept := slept w |}
     else w).

Definition print (line : string) : M unit :=
  fun w =>
    (Ok tt,
     {| dirs := dirs w; files := files w; log := log w;
        stdout := stdout w ++ [line]; slept := slept w |}).

Definition sleep (seconds : Z) : M unit :=
  fun w =>
    (Ok tt,
     {| dirs := dirs w; files := files w; log := log w;
        stdout := stdout w; slept := (slept w + seconds)%Z |}).

(** [os.makedirs(path, exist_ok=True)] *)
Definition os_makedirs (e : env) (path : string) : M unit :=
  fun w =>
    match makedirs_fails e path with
    | Some err => (Raise err, w)
    | None =>
        (Ok tt,
         {| dirs := if string_mem path (dirs w) then dirs w else dirs w ++ [path];
            files := files w; log := log w;
            stdout := stdout w; slept := slept w |})
    end.

(** Writing [content] at [path], replacing what was there. The failure
    [write_fails] tells of is the failure to open the file for writing,
    which leaves the files as they are; a failure after the file is
    opened, which would leave it truncated, is not part of the model. *)
Definition write_file (e : env) (path : string) (content : file_content) : M unit :=
  fun w =>
    match write_fails e path with
    | Some err => (Raise err, w)
    | None =>
        (Ok tt,
         {| dirs := dirs w;
            files := filter (fun f => negb (String.eqb (fst f) path)) (files w)
                     ++ [(path, content)];
            log := log w; stdout := stdout w; slept := slept w |})
    end.

Definition starts_with_slash (s : string) : bool :=
  match s with
  | String c _ => Ascii.eqb c "/"%char
  | EmptyString => false
  end.

Fixpoint ends_with_slash (s : string) : bool :=
  match s with
  | EmptyString => false
  | String c EmptyString => Ascii.eqb c "/"%char
  | String _ rest => ends_with_slash rest
  end.

(** [os.path.join(a, b)] *)
Definition path_join (a b : string) : string :=
  if starts_with_slash b then b
  else if String.eqb a "" || ends_with_slash a then (a ++ b)%string
  else (a ++ "/" ++ b)%string.

(** [requests.get(URL, params=params, headers=HEADERS)] *)
Definition requests_get (e : env) (query : string) (locality : pyval)
  (country : string) : M response :=
  match http e query locality country with
  | TransportError msg => raise (RequestException msg)
  | Responded r => ret r
  end.

(** [response.raise_for_status()]: a 4xx or a 5xx status raises. *)
Definition raise_for_status (r : response) : M unit :=
  if (400 <=? status_code r)%Z && (status_code r <? 600)%Z
  then raise (HTTPError (status_code r))
  else ret tt.

(** [response.json()] *)
Definition response_json (e : env) (r : response) : M pyval :=
  match body r with
  | Some v => ret v
  | None => raise (json_decode_error e)
  end.

(** [for x in l: body x], stopping at the first exception. *)
Fixpoint for_each {A : Type} (body : A -> M unit) (l : list A) : M unit :=
  match l with
  | [] => ret tt
  | x :: rest => _ <~ body x ;; for_each body rest
  end.

(** ** [src/get_json.py] *)

Module GetJson.

Definition fetch_failed : string := "An error occurred while fetching product data.".
Definition invalid_json : string := "Received an invalid JSON response.".

(** [get_product_data(query, cep, country)] *)
Definition get_product_data (e : env) (query : string) (cep : pyval)
  (country : string) : M pyval :=
  response <~
    catch
      (_ <~ sleep 2 ;;
       response <~ requests_get e query cep country ;;
       _ <~ raise_for_status response ;;
       ret response)
      (fun err =>
         if is_HTTPError err || is_RequestException err then
           _ <~ logging ERROR "Error occurred while fetching product data" (Some err) ;;
           raise (APIError fetch_failed)
         else raise err) ;;
  catch
    (response_json e response)
    (fun err =>
       if is_ValueError err then raise (APIError invalid_json)
       else raise err).

(** [get_nested(data, *args)] *)
Fixpoint get_nested (data : pyval) (args : list string) : result pyval :=
  match args with
  | [] => Ok data
  | arg :: rest =>
      if is_None data then Ok VNone
      else
        data' <- py_get data arg VNone ;;
        get_nested data' rest
  end.

(** [create_row(data, aisle, product)]; [date] is today's date as
    [strftime("%d-%m-%Y")] prints it. *)
Definition create_row (date : string) (data aisle product : pyval)
  : result pyval :=
  aisle_name <- py_get aisle "aisle_name" VNone ;;
  product_name <- py_get product "name" VNone ;;
  brand <- get_nested product ["brand"; "name"] ;;
  price <- get_nested product ["pricing"; "price"; "amount"] ;;
  package <- py_get product "package" VNone ;;
  store_name <- get_nested data ["store"; "name"] ;;
  store_city <- get_nested data ["store"; "closest_branch"; "city"] ;;
  search_term <- get_nested data ["search_result"; "search_term"] ;;
  Ok (VDict [ ("date", VStr date);
              ("aisle_name", aisle_name);
              ("product_name", product_name);
              ("brand", brand);
              ("price", price);
              ("package", package);
              ("store_name", store_name);
              ("store_city", store_city);
              ("search_term", search_term) ]).

Definition rows_of_aisle (date : string) (data aisle : pyval)
  : result (list pyval) :=
  products_v <- py_get aisle "products" (VList []) ;;
  products <- py_iter products_v ;;
  mapM (create_row date data aisle) products.

Definition rows_of_store (date : string) (data : pyval) : result (list pyval) :=
  aisles_v <- get_nested data ["search_result"; "aisles"] ;;
  aisles <- py_iter aisles_v ;;
  concat_mapM (rows_of_aisle date data) aisles.

(** [create_data(results)]: the three nested [for] clauses of the
    comprehension. *)
Definition create_data (date : string) (results : pyval) : result (list pyval) :=
  stores <- py_iter results ;;
  concat_mapM (rows_of_store date) stores.

(** [save_as_json(data, save_path)] *)
Definition save_as_json (e : env) (data : pyval) (save_path : string) : M unit :=
  write_file e save_path (JsonFile data).

(** [get_and_create(term, code, country, base_dir)] *)
Definition get_and_create (e : env) (term code country base_dir : string)
  : M pyval :=
  _ <~ print "Fetching product data..." ;;
  raw_json_data <~ get_product_data e term (VStr code) country ;;
  json_data <~ lift (py_get raw_json_data "results" (VList [])) ;;
  data <~ lift (create_data (today e) json_data) ;;
  let data_dir := path_join base_dir "data" in
  _ <~ os_makedirs e data_dir ;;
  let timestamp := now e in
  let filename := (term ++ "_" ++ code ++ "_" ++ timestamp)%string in
  let save_path := path_join data_dir (filename ++ ".json")%string in
  _ <~ print ("Saving data as JSON: " ++ save_path)%string ;;
  _ <~ save_as_json e (VList data) save_path ;;
  _ <~ print "Data saved successfully." ;;
  ret (VList data).

(** The script entry: [supermercado] is the list of lists of terms the
    module [listas] provides, each term paired with the environment its
    call runs in (the answer of the endpoint and the clock at that time);
    [base_dir], [code] and [country] are the values of the environment
    variables [CS_DIRECTORY], [CS_CODE] and [CS_COUNTRY], taken as set. *)
Definition main (supermercado : list (list (env * string)))
  (base_dir code country : string) : M unit :=
  for_each
    (fun categoria =>
       for_each
         (fun item =>
            fruta_data <~ get_and_create (fst item) (snd item) code country
                            base_dir ;;
            ret tt)
         categoria)
    supermercado.

End GetJson.

(** ** [get_prices.py] *)

Module GetPrices.

(** [get_product_data(query, cep, country)] *)
Definition get_product_data (e : env) (query : string) (cep : Z)
  (country : string) : M pyval :=
  catch
    (response <~ requests_get e query (VInt cep) country ;;
     _ <~ raise_for_status response ;;
     json_file <~ response_json e response ;;
     ret json_file)
    (fun err =>
       if is_HTTPError err then
         _ <~ logging ERROR "HTTP error occurred" (Some err) ;;
         ret VNone
       else if is_RequestException err then
         _ <~ logging ERROR "Other Requests error occurred" (Some err) ;;
         ret VNone
       else raise err).

(** The inner [create_row(data, aisle, product)] of [create_dataframe];
    [date] is today's date in ISO format. The entries are evaluated in
    the order of the dictionary display. *)
Definition create_row (date : string) (data aisle product : pyval)
  : result pyval :=
  pricing <- py_get product "pricing" (VDict []) ;;
  price <- py_get pricing "price" (VDict []) ;;
  amount <- py_get price "amount" (VStr "") ;;
  package <- py_get product "package" (VStr "") ;;
  search_result <- py_get data "search_result" (VDict []) ;;
  search_term <- py_get search_result "search_term" (VStr "") ;;
  brand <- py_get product "brand" (VList []) ;;
  brand_name <- py_get brand "name" (VStr "") ;;
  brand' <- py_get product "brand" (VList []) ;;
  brand_id <- py_get brand' "id" (VStr "") ;;
  aisle_name <- py_get aisle "aisle_name" (VStr "") ;;
  product_name <- py_get product "name" (VStr "") ;;
  product_id <- py_get product "id" (VStr "") ;;
  store <- py_get data "store" (VDict []) ;;
  store_name <- py_get store "name" (VStr "") ;;
  store' <- py_get data "store" (VDict []) ;;
  store_id <- py_get store' "id" (VStr "") ;;
  store'' <- py_get data "store" (VDict []) ;;
  closest_branch <- py_get store'' "closest_branch" (VDict []) ;;
  city <- py_get closest_branch "city" (VStr "") ;;
  Ok (VDict [ ("Date", VStr date);
              ("Product Price", amount);
              ("Package", package);
              ("Search Term", search_term);
              ("Brand", brand_name);
              ("Brand ID", brand_id);
              ("Aisle Name", aisle_name);
              ("Product Name", product_name);
              ("Product ID", product_id);
              ("Store Name", store_name);
              ("Store ID", store_id);
              ("Store City", city) ]).

Definition rows_of_aisle (date : string) (data aisle : pyval)
  : result (list pyval) :=
  products_v <- py_get aisle "products" (VList []) ;;
  products <- py_iter products_v ;;
  mapM (create_row date data aisle) products.

Definition rows_of_store (date : string) (data : pyval) : result (list pyval) :=
  search_result <- py_get data "search_result" (VDict []) ;;
  aisles_v <- py_get search_result "aisles" (VList []) ;;
  aisles <- py_iter aisles_v ;;
  concat_mapM (rows_of_aisle date data) aisles.

(** [create_dataframe(results)]: the rows of the comprehension, in
    order, as they are handed to [pd.DataFrame]. The frame pandas builds
    from them (its column types, and the coercions they bring) is not
    modelled: a frame stands for the rows it was built from. *)
Definition create_dataframe (date : string) (results : pyval)
  : result (list pyval) :=
  stores <- py_iter results ;;
  concat_mapM (rows_of_store date) stores.

Definition supported_formats : list string := ["csv"; "parquet"; "json"].

(** The [ValueError] of an unsupported format. Its message prints the
    set of supported formats, in an order that depends on the hash seed
    of the run; the order written here is one of them. *)
Definition unsupported_format (format : string) : exn :=
  ValueError ("Unsupported file format: " ++ format
              ++ ". Supported formats are {'csv', 'parquet', 'json'}.")%string.

(** [export_data(df, dir_path, base_name, format)] *)
Definition export_data (e : env) (df : list pyval)
  (dir_path base_name format : string) : M unit :=
  if negb (string_mem format supported_formats) then
    raise (unsupported_format format)
  else
    _ <~ os_makedirs e dir_path ;;
    let timestamp := now e in
    let filename := (base_name ++ "_" ++ timestamp ++ "." ++ format)%string in
    let file_path := path_join dir_path filename in
    catch
      (_ <~ (if String.eqb format "csv" then
               write_file e file_path (CsvFile df)
             else if String.eqb format "parquet" then
               write_file e file_path (ParquetFile df)
             else if String.eqb format "json" then
               write_file e file_path (JsonLinesFile df)
             else ret tt) ;;
       logging INFO ("Data successfully exported to " ++ file_path)%string None)
      (fun err =>
         _ <~ logging ERROR
                ("An error occurred while exporting data to " ++ file_path)%string
                (Some err) ;;
         raise err).

(** [fetch_and_export_product_data(query, cep, country, dir_path,
    base_name, format)] *)
Definition fetch_and_export_product_data (e : env) (query : string) (cep : Z)
  (country dir_path base_name format : string) : M unit :=
  raw_json_data <~ get_product_data e query cep country ;;
  if negb (truthy raw_json_data) then
    logging WARNING "No data returned." None
  else
    product_results <~ lift (py_get raw_json_data "results" (VList [])) ;;
    if negb (is_list product_results) then
      logging WARNING
        "'results' is not present or not a list in the returned data." None
    else
      df <~ lift (create_dataframe (today e) product_results) ;;
      export_data e df dir_path base_name format.

(** [dump_to_file(data, filename)]; [str_of] is Python's [str] on the
    exception caught. *)
Definition dump_to_file (e : env) (str_of : exn -> string) (data : pyval)
  (filename : string) : M unit :=
  catch
    (_ <~ write_file e filename (JsonFile data) ;;
     print ("Data successfully dumped to " ++ filename)%string)
    (fun err =>
       print ("An error occurred while dumping data to the file: "
              ++ str_of err)%string).

End GetPrices.

(** ** The data model of the specification, read off a [pyval]

    A store result holds an ordered sequence of aisles under
    [search_result.aisles], an aisle an ordered sequence of products
    under [products]; a sequence that is absent counts as empty. *)

Definition field (key : string) (v : pyval) : option pyval :=
  match v with
  | VDict entries => dict_lookup key entries
  | _ => None
  end.

Definition aisles_of (data : pyval) : list pyval :=
  match field "search_result" data with
  | Some search_result =>
      match field "aisles" search_result with
      | Some (VList aisles) => aisles
      | _ => []
      end
  | None => []
  end.

Definition products_of (aisle : pyval) : list pyval :=
  match field "products" aisle with
  | Some (VList products) => products
  | _ => []
  end.

(** The sum, over the stores and over the aisles of each store, of the
    number of products of the aisle. *)
Definition product_occurrences (stores : list pyval) : nat :=
  list_sum
    (map (fun data => list_sum (map (fun aisle => List.length (products_of aisle))
                                    (aisles_of data)))
         stores).

(** The flat map of a row constructor over stores, then aisles, then
    products. *)
Definition flat_rows (row : pyval -> pyval -> pyval -> result pyval)
  (stores : list pyval) : list (result pyval) :=
  flat_map
    (fun data =>
       flat_map (fun aisle => map (row data aisle) (products_of aisle))
                (aisles_of data))
    stores.

(** A value the safe navigation can step through: absent, [None] or a
    dictionary. *)
Definition navigable (v : option pyval) : bool :=
  match v with
  | None | Some VNone | Some (VDict _) => true
  | _ => false
  end.

(** A value a [.get(key, {})] chain can step through: absent or a
    dictionary. *)
Definition dict_or_absent (v : option pyval) : bool :=
  match v with
  | None | Some (VDict _) => true
  | _ => false
  end.

(** The store results [GetJson.create_data] flattens without raising:
    dictionaries all the way down, the aisle list present, every optional
    object absent, null or a dictionary. *)
Module JsonShape.

Definition product_ok (product : pyval) : bool :=
  is_dict product
  && navigable (field "brand" product)
  && match field "pricing" product with
     | Some pricing => navigable (Some pricing) && navigable (field "price" pricing)
     | None => true
     end.

Definition aisle_ok (aisle : pyval) : bool :=
  is_dict aisle
  && match field "products" aisle with
     | Some (VList products) => forallb product_ok products
     | Some _ => false
     | None => true
     end.

(* what a row reads of its store result *)
Definition context_ok (data : pyval) : bool :=
  is_dict data
  && match field "store" data with
     | Some store => navigable (Some store) && navigable (field "closest_branch" store)
     | None => true
     end
  && navigable (field "search_result" data).

Definition store_ok (data : pyval) : bool :=
  context_ok data
  && match field "search_result" data with
     | Some search_result =>
         match field "aisles" search_result with
         | Some (VList aisles) => forallb aisle_ok aisles
         | _ => false
         end
     | None => false
     end.

Definition shaped (stores : list pyval) : bool := forallb store_ok stores.

End JsonShape.

(** The store results [GetPrices.create_dataframe] flattens without
    raising: dictionaries all the way down, every optional object absent
    or a dictionary, and every product with a [brand] dictionary. *)
Module PricesShape.

Definition product_ok (product : pyval) : bool :=
  is_dict product
  && match field "brand" product with
     | Some (VDict _) => true
     | _ => false
     end
  && match field "pricing" product with
     | Some pricing => is_dict pricing && dict_or_absent (field "price" pricing)
     | None => true
     end.

Definition aisle_ok (aisle : pyval) : bool :=
  is_dict aisle
  && match field "products" aisle with
     | Some (VList products) => forallb product_ok products
     | Some _ => false
     | None => true
     end.

(* what a row reads of its store result *)
Definition context_ok (data : pyval) : bool :=
  is_dict data
  && match field "store" data with
     | Some store => is_dict store && dict_or_absent (field "closest_branch" store)
     | None => true
     end
  && dict_or_absent (field "search_result" data).

Definition store_ok (data : pyval) : bool :=
  context_ok data
  && match field "search_result" data with
     | Some search_result =>
         match field "aisles" search_result with
         | Some (VList aisles) => forallb aisle_ok aisles
         | Some _ => false
         | None => true
         end
     | None => true
     end.

Definition shaped (stores : list pyval) : bool := forallb store_ok stores.

End PricesShape.

(** The navigation of the specification: following a chain of keys ends
    on the value reached, on a step that is absent or null, or on a value
    that is neither null nor a dictionary while keys remain. *)
Inductive walk_result : Type :=
| Reached (v : pyval)
| Missing
| Blocked (v : pyval).

Fixpoint walk (v : pyval) (keys : list string) : walk_result :=
  match keys with
  | [] => Reached v
  | key :: rest =>
      match v with
      | VNone => Missing
      | VDict entries =>
          match dict_lookup key entries with
          | Some v' => walk v' rest
          | None => Missing
          end
      | _ => Blocked v
      end
  end.

(** ** Sample inputs

    The response of the end-to-end scenario of the specification, and
    the variations of it the statements below are run on. *)

Definition scenario_product : pyval :=
  VDict [ ("name", VStr "Milk 1L"); ("id", VInt 9);
          ("brand", VDict [("name", VStr "B"); ("id", VInt 2)]);
          ("pricing", VDict [("price", VDict [("amount", VFloat 5.5)])]);
          ("package", VStr "1L") ].

Definition scenario_aisle : pyval :=
  VDict [ ("aisle_name", VStr "Dairy"); ("products", VList [scenario_product]) ].

Definition scenario_store_info : pyval :=
  VDict [ ("name", VStr "S1"); ("id", VInt 1);
          ("closest_branch", VDict [("city", VStr "X")]) ].

Definition scenario_store : pyval :=
  VDict [ ("store", scenario_store_info);
          ("search_result",
           VDict [ ("search_term", VStr "milk");
                   ("aisles", VList [scenario_aisle]) ]) ].

Definition scenario_results : list pyval := [scenario_store].

Definition scenario_response : pyval :=
  VDict [("results", VList scenario_results)].

(** A product with no brand, no pricing and no package. *)
Definition bare_product : pyval :=
  VDict [ ("name", VStr "Milk 1L"); ("id", VInt 9) ].

(** A store result with no aisle list. *)
Definition store_without_aisles : pyval :=
  VDict [ ("store", scenario_store_info);
          ("search_result", VDict [("search_term", VStr "milk")]) ].

(** A response whose [results] is null. *)
Definition null_results_response : pyval := VDict [("results", VNone)].

Definition world0 : world :=
  {| dirs := []; files := []; log := []; stdout := []; slept := 0 |}.

Definition env_of (outcome : http_outcome) : env :=
  {| http := fun _ _ _ => outcome;
     json_decode_error := JSONDecodeError;
     today := "2026-11-04";
     now := "20261104-120000";
     makedirs_fails := fun _ => None;
     write_fails := fun _ => None |}.

Definition env_down : env := env_of (TransportError "connection refused").

Definition env_not_found : env :=
  env_of (Responded {| status_code := 404; body := None |}).

Definition env_garbled : env :=
  env_of (Responded {| status_code := 200; body := None |}).

Definition env_scenario : env :=
  env_of (Responded {| status_code := 200; body := Some scenario_response |}).

Definition env_null_results : env :=
  env_of (Responded {| status_code := 200; body := Some null_results_response |}).

(** A fetch that ends in a transport error or in a status that
    [raise_for_status] rejects. *)
Definition fetch_fails (outcome : http_outcome) : bool :=
  match outcome with
  | TransportError _ => true
  | Responded r => (400 <=? status_code r)%Z && (status_code r <? 600)%Z
  end.

(** A fetch that is answered with an accepted status and a body that is
    not JSON. *)
Definition body_unparsable (outcome : http_outcome) : bool :=
  match outcome with
  | TransportError _ => false
  | Responded r =>
      negb ((400 <=? status_code r)%Z && (status_code r <? 600)%Z)
      && match body r with
         | None => true
         | Some _ => false
         end
  end.

(** The path [export_data] writes to. *)
Definition export_path (e : env) (dir_path base_name format : string) : string :=
  path_join dir_path (base_name ++ "_" ++ now e ++ "." ++ format)%string.

(** A value that is absent or null. *)
Definition absent_or_null (v : option pyval) : bool :=
  match v with
  | None | Some VNone => true
  | _ => false
  end.

(** What [export_data] writes for a supported format. *)
Definition content_of (format : string) (df : list pyval) : file_content :=
  if String.eqb format "csv" then CsvFile df
  else if String.eqb format "parquet" then ParquetFile df
  else JsonLinesFile df.

(** The world after [content] is written at [path]. *)
Definition with_file (path : string) (content : file_content) (w : world)
  : world :=
  {| dirs := dirs w;
     files := filter (fun f => negb (String.eqb (fst f) path)) (files w)
              ++ [(path, content)];
     log := log w; stdout := stdout w; slept := slept w |}.

(** The world after [path] is ensured to be a directory. *)
Definition with_dir (path : string) (w : world) : world :=
  {| dirs := if string_mem path (dirs w) then dirs w else dirs w ++ [path];
     files := files w; log := log w; stdout := stdout w; slept := slept w |}.

(** The world after a record is logged, a line is printed, seconds are
    slept. *)
Definition with_log (lv : level) (text : string) (err : option exn) (w : world)
  : world :=
  {| dirs := dirs w; files := files w;
     log := log w ++ [{| log_level := lv; log_text := text; log_exn := err |}];
     stdout := stdout w; slept := slept w |}.

Definition with_line (line : string) (w : world) : world :=
  {| dirs := dirs w; files := files w; log := log w;
     stdout := stdout w ++ [line]; slept := slept w |}.

Definition with_sleep (seconds : Z) (w : world) : world :=
  {| dirs := dirs w; files := files w; log := log w;
     stdout := stdout w; slept := (slept w + seconds)%Z |}.

(** The status [raise_for_status] accepts. *)
Definition status_ok (status : Z) : bool :=
  negb ((400 <=? status)%Z && (status <? 600)%Z).

(** The keys of a row. *)
Definition keys_of (row : pyval) : list string :=
  match row with
  | VDict entries => map fst entries
  | _ => []
  end.

Definition json_columns : list string :=
  ["date"; "aisle_name"; "product_name"; "brand"; "price"; "package";
   "store_name"; "store_city"; "search_term"].

Definition prices_columns : list string :=
  ["Date"; "Product Price"; "Package"; "Search Term"; "Brand"; "Brand ID";
   "Aisle Name"; "Product Name"; "Product ID"; "Store Name"; "Store ID";
   "Store City"].

(** The path [get_and_create] saves to. *)
Definition save_path (e : env) (base_dir term code : string) : string :=
  path_join (path_join base_dir "data")
            ((term ++ "_" ++ code ++ "_" ++ now e) ++ ".json")%string.

(** An environment whose endpoint answers [raw] with status 200. *)
Definition env_answering (raw : pyval) : env :=
  env_of (Responded {| status_code := 200; body := Some raw |}).

(** An environment whose file writes fail. *)
Definition env_read_only : env :=
  {| http := fun _ _ _ =>
       Responded {| status_code := 200; body := Some scenario_response |};
     json_decode_error := JSONDecodeError;
     today := "2026-11-04";
     now := "20261104-120000";
     makedirs_fails := fun _ => None;
     write_fails := fun _ => Some (OSError "Read-only file system") |}.

(** The body of the inner loop of the script entry of [get_json.py]. *)
Definition process (base_dir code country : string) (item : env * string)
  : M unit :=
  fruta_data <~ GetJson.get_and_create (fst item) (snd item) code country
                  base_dir ;;
  ret tt.

(** The value at the end of a chain of keys, null when the chain breaks
    on an absent or null step. *)
Definition reach (v : pyval) (keys : list string) : pyval :=
  match walk v keys with
  | Reached x => x
  | _ => VNone
  end.

(** A product with a brand and nothing else. *)
Definition branded_product : pyval :=
  VDict [("brand", VDict [("name", VStr "B"); ("id", VInt 2)])].

(** The exception a failed fetch raises inside [get_product_data]. *)
Definition fetch_error (outcome : http_outcome) : exn :=
  match outcome with
  | TransportError msg => RequestException msg
  | Responded r => HTTPError (status_code r)
  end.

(** The text [get_product_data] of [get_prices.py] logs before the
    exception it has caught. *)
Definition prices_error_text (err : exn) : string :=
  if is_HTTPError err then "HTTP error occurred"
  else "Other Requests error occurred".

(** The text [get_product_data] of [get_json.py] logs before the
    exception it has caught. *)
Definition json_error_text : string :=
  "Error occurred while fetching product data".

(** A status of the success class, 2xx. *)
Definition success_status (status : Z) : bool :=
  (200 <=? status)%Z && (status <? 300)%Z.

(** An endpoint that answers 300, Multiple Choices, with a JSON body. *)
Definition env_multiple_choices : env :=
  env_of (Responded {| status_code := 300; body := Some scenario_response |}).

(** A store result with one aisle of two products, the second without
    brand. *)
Definition store_two_products : pyval :=
  VDict [ ("store", scenario_store_info);
          ("search_result",
           VDict [ ("search_term", VStr "milk");
                   ("aisles",
                    VList [VDict [ ("aisle_name", VStr "Dairy");
                                   ("products",
                                    VList [scenario_product; bare_product]) ]]) ]) ].

(** ** The comprehension combinators *)

Section Comprehension.

Context {A B : Type}.

Lemma mapM_map (f : A -> result B) (l : list A) (ys : list B) :
  mapM f l = Ok ys -> map Ok ys = map f l.
Proof.
  revert ys; induction l as [|x l IH]; simpl; intros ys H.
  - inversion H; reflexivity.
  - destruct (f x) as [y|e]; simpl in H; [|discriminate].
    destruct (mapM f l) as [ys'|e]; simpl in H; [|discriminate].
    inversion H; subst; simpl. now rewrite (IH ys' eq_refl).
Qed.

Lemma mapM_total (f : A -> result B) (l : list A) :
  (forall x, In x l -> is_ok (f x) = true) -> is_ok (mapM f l) = true.
Proof.
  induction l as [|x l IH]; simpl; intros H; [reflexivity|].
  assert (Hx := H x (or_introl eq_refl)).
  destruct (f x) as [y|e]; [|discriminate]; simpl.
  assert (Hl : is_ok (mapM f l) = true) by (apply IH; intros; apply H; now right).
  destruct (mapM f l); [reflexivity|discriminate].
Qed.

Lemma concat_mapM_flat_map (f : A -> result (list B)) (g : A -> list (result B))
  (l : list A) (zs : list B) :
  (forall x ys, In x l -> f x = Ok ys -> map Ok ys = g x) ->
  concat_mapM f l = Ok zs -> map Ok zs = flat_map g l.
Proof.
  revert zs; induction l as [|x l IH]; simpl; intros zs Hf H.
  - inversion H; reflexivity.
  - destruct (f x) as [ys|e] eqn:Ex; simpl in H; [|discriminate].
    destruct (concat_mapM f l) as [zs'|e]; simpl in H; [|discriminate].
    inversion H; subst. rewrite map_app.
    rewrite (Hf x ys (or_introl eq_refl) Ex).
    rewrite (IH zs'); auto.
Qed.

Lemma concat_mapM_total (f : A -> result (list B)) (l : list A) :
  (forall x, In x l -> is_ok (f x) = true) -> is_ok (concat_mapM f l) = true.
Proof.
  induction l as [|x l IH]; simpl; intros H; [reflexivity|].
  assert (Hx := H x (or_introl eq_refl)).
  destruct (f x) as [y|e]; [|discriminate]; simpl.
  assert (Hl : is_ok (concat_mapM f l) = true)
    by (apply IH; intros; apply H; now right).
  destruct (concat_mapM f l); [reflexivity|discriminate].
Qed.

(** Stores flattened one after the other: the rows of the first stores
    come before the rows of the next ones. *)
Lemma concat_mapM_app (f : A -> result (list B)) (l1 l2 : list A)
  (zs1 zs2 : list B) :
  concat_mapM f l1 = Ok zs1 -> concat_mapM f l2 = Ok zs2 ->
  concat_mapM f (l1 ++ l2) = Ok (zs1 ++ zs2).
Proof.
  revert zs1; induction l1 as [|x l1 IH]; simpl; intros zs1 H1 H2.
  - inversion H1; exact H2.
  - destruct (f x) as [ys|e]; simpl in *; [|discriminate].
    destruct (concat_mapM f l1) as [zs'|e]; simpl in *; [|discriminate].
    inversion H1; subst. rewrite (IH zs' eq_refl H2). simpl.
    now rewrite app_assoc.
Qed.

End Comprehension.

Lemma is_ok_true {A : Type} (m : result A) :
  is_ok m = true -> exists a, m = Ok a.
Proof. destruct m; simpl; intros H; [eauto|discriminate]. Qed.



(** ** The flatteners follow the nested traversal *)

(** Case analysis on every [match] of a hypothesis, one scrutinee at a
    time. *)
Ltac split_matches H :=
  repeat (simpl in H;
          match type of H with
          | context [match ?x with _ => _ end] => destruct x eqn:?
          end);
  simpl in H; try discriminate H.

Lemma json_rows_of_aisle_order date data aisle rows :
  GetJson.rows_of_aisle date data aisle = Ok rows ->
  map Ok rows = map (GetJson.create_row date data aisle) (products_of aisle).
Proof.
  unfold GetJson.rows_of_aisle, products_of, field, py_get.
  intros H. destruct aisle; simpl in H; try discriminate H.
  destruct (dict_lookup "products" entries) as [v|] eqn:Ep; simpl in H.
  - destruct v; simpl in H; try discriminate H.
    + destruct s as [|c s]; simpl in H; [now inversion H|].
      unfold GetJson.create_row at 1 in H. split_matches H.
    + now apply mapM_map.
    + destruct entries0 as [|[k v] rest]; simpl in H; [now inversion H|].
      unfold GetJson.create_row at 1 in H. split_matches H.
  - now inversion H.
Qed.

Lemma json_rows_of_store_order date data rows :
  GetJson.rows_of_store date data = Ok rows ->
  map Ok rows =
  flat_map (fun aisle => map (GetJson.create_row date data aisle) (products_of aisle))
           (aisles_of data).
Proof.
  unfold GetJson.rows_of_store, aisles_of, field. intros H.
  destruct data; simpl in H; try discriminate H.
  destruct (dict_lookup "search_result" entries) as [sr|] eqn:Es; simpl in H;
    [|discriminate H].
  destruct sr; simpl in H; try discriminate H.
  destruct (dict_lookup "aisles" entries0) as [v|] eqn:Ea; simpl in H;
    [|discriminate H].
  destruct v; simpl in H; try discriminate H.
  - destruct s as [|c s]; simpl in H; [now inversion H|discriminate H].
  - eapply concat_mapM_flat_map; [|exact H].
    intros aisle ys _. apply json_rows_of_aisle_order.
  - destruct entries1 as [|[k v] rest]; simpl in H; [now inversion H|discriminate H].
Qed.

Lemma create_data_order date stores rows :
  GetJson.create_data date (VList stores) = Ok rows ->
  map Ok rows = flat_rows (GetJson.create_row date) stores.
Proof.
  unfold GetJson.create_data, flat_rows; simpl. intros H.
  eapply concat_mapM_flat_map; [|exact H].
  intros data ys _. apply json_rows_of_store_order.
Qed.

Lemma prices_rows_of_aisle_order date data aisle rows :
  GetPrices.rows_of_aisle date data aisle = Ok rows ->
  map Ok rows = map (GetPrices.create_row date data aisle) (products_of aisle).
Proof.
  unfold GetPrices.rows_of_aisle, products_of, field, py_get.
  intros H. destruct aisle; simpl in H; try discriminate H.
  destruct (dict_lookup "products" entries) as [v|] eqn:Ep; simpl in H.
  - destruct v; simpl in H; try discriminate H.
    + destruct s as [|c s]; simpl in H; [now inversion H|discriminate H].
    + now apply mapM_map.
    + destruct entries0 as [|[k v] rest]; simpl in H; [now inversion H|discriminate H].
  - now inversion H.
Qed.

Lemma prices_rows_of_store_order date data rows :
  GetPrices.rows_of_store date data = Ok rows ->
  map Ok rows =
  flat_map (fun aisle => map (GetPrices.create_row date data aisle) (products_of aisle))
           (aisles_of data).
Proof.
  unfold GetPrices.rows_of_store, aisles_of, field. intros H.
  destruct data; simpl in H; try discriminate H.
  destruct (dict_lookup "search_result" entries) as [sr|] eqn:Es; simpl in H.
  - destruct sr; simpl in H; try discriminate H.
    destruct (dict_lookup "aisles" entries0) as [v|] eqn:Ea; simpl in H.
    + destruct v; simpl in H; try discriminate H.
      * destruct s as [|c s]; simpl in H; [now inversion H|discriminate H].
      * eapply concat_mapM_flat_map; [|exact H].
        intros aisle ys _. apply prices_rows_of_aisle_order.
      * destruct entries1 as [|[k v] rest]; simpl in H;
          [now inversion H|discriminate H].
    + now inversion H.
  - now inversion H.
Qed.

Lemma create_dataframe_order date stores rows :
  GetPrices.create_dataframe date (VList stores) = Ok rows ->
  map Ok rows = flat_rows (GetPrices.create_row date) stores.
Proof.
  unfold GetPrices.create_dataframe, flat_rows; simpl. intros H.
  eapply concat_mapM_flat_map; [|exact H].
  intros data ys _. apply prices_rows_of_store_order.
Qed.

(** The rows of the first stores come before the rows of the next
    ones. *)
Lemma create_data_app date stores1 stores2 rows1 rows2 :
  GetJson.create_data date (VList stores1) = Ok rows1 ->
  GetJson.create_data date (VList stores2) = Ok rows2 ->
  GetJson.create_data date (VList (stores1 ++ stores2)) = Ok (rows1 ++ rows2).
Proof. unfold GetJson.create_data; simpl. apply concat_mapM_app. Qed.

Lemma create_dataframe_app date stores1 stores2 rows1 rows2 :
  GetPrices.create_dataframe date (VList stores1) = Ok rows1 ->
  GetPrices.create_dataframe date (VList stores2) = Ok rows2 ->
  GetPrices.create_dataframe date (VList (stores1 ++ stores2))
  = Ok (rows1 ++ rows2).
Proof. unfold GetPrices.create_dataframe; simpl. apply concat_mapM_app. Qed.

(** ** The flatteners return on well-shaped store results *)

Lemma bind_total {A B : Type} (m : result A) (k : A -> result B) :
  is_ok m = true -> (forall a, m = Ok a -> is_ok (k a) = true) ->
  is_ok (bind m k) = true.
Proof. destruct m; simpl; intros H Hk; [now apply Hk|discriminate]. Qed.

Lemma py_get_total v key default :
  is_dict v = true -> is_ok (py_get v key default) = true.
Proof.
  destruct v; simpl; try discriminate. intros _.
  now destruct (dict_lookup key entries).
Qed.

Lemma get_nested2_total v k1 k2 :
  is_dict v = true -> navigable (field k1 v) = true ->
  is_ok (GetJson.get_nested v [k1; k2]) = true.
Proof.
  destruct v; simpl; try discriminate. intros _.
  destruct (dict_lookup k1 entries) as [x|]; simpl; [|reflexivity].
  destruct x; simpl; try discriminate; try reflexivity. intros _.
  now destruct (dict_lookup k2 entries0).
Qed.

Lemma get_nested3_total v k1 k2 k3 :
  is_dict v = true ->
  match field k1 v with
  | Some x => navigable (Some x) && navigable (field k2 x)
  | None => true
  end = true ->
  is_ok (GetJson.get_nested v [k1; k2; k3]) = true.
Proof.
  destruct v; simpl; try discriminate. intros _.
  destruct (dict_lookup k1 entries) as [x|]; simpl; [|reflexivity].
  destruct x; simpl; try discriminate; try reflexivity.
  destruct (dict_lookup k2 entries0) as [y|]; simpl; [|reflexivity].
  destruct y; simpl; try discriminate; try reflexivity. intros _.
  now destruct (dict_lookup k3 entries1).
Qed.

Lemma json_create_row_total date data aisle product :
  JsonShape.context_ok data = true -> is_dict aisle = true ->
  JsonShape.product_ok product = true ->
  is_ok (GetJson.create_row date data aisle product) = true.
Proof.
  unfold JsonShape.context_ok, JsonShape.product_ok, GetJson.create_row.
  intros Hd Ha Hp.
  apply andb_prop in Hd; destruct Hd as [Hd Hsr].
  apply andb_prop in Hd; destruct Hd as [Hd Hst].
  apply andb_prop in Hp; destruct Hp as [Hp Hpr].
  apply andb_prop in Hp; destruct Hp as [Hp Hbr].
  apply bind_total; [now apply py_get_total|intros aisle_name _].
  apply bind_total; [now apply py_get_total|intros product_name _].
  apply bind_total; [now apply get_nested2_total|intros brand _].
  apply bind_total; [now apply get_nested3_total|intros price _].
  apply bind_total; [now apply py_get_total|intros package _].
  apply bind_total; [apply get_nested2_total; auto|intros store_name _].
  - destruct (field "store" data); [|reflexivity].
    apply andb_prop in Hst; tauto.
  - apply bind_total; [now apply get_nested3_total|intros store_city _].
    apply bind_total; [now apply get_nested2_total|intros search_term _].
    reflexivity.
Qed.

Lemma json_rows_of_aisle_total date data aisle :
  JsonShape.context_ok data = true -> JsonShape.aisle_ok aisle = true ->
  is_ok (GetJson.rows_of_aisle date data aisle) = true.
Proof.
  unfold JsonShape.aisle_ok, GetJson.rows_of_aisle. intros Hd Ha.
  apply andb_prop in Ha; destruct Ha as [Ha Hps].
  destruct aisle; try discriminate Ha. simpl in *.
  destruct (dict_lookup "products" entries) as [v|]; simpl; [|reflexivity].
  destruct v; try discriminate Hps. simpl.
  apply mapM_total. intros product Hin.
  apply json_create_row_total; auto.
  rewrite forallb_forall in Hps. now apply Hps.
Qed.

Lemma json_rows_of_store_total date data :
  JsonShape.store_ok data = true ->
  is_ok (GetJson.rows_of_store date data) = true.
Proof.
  unfold JsonShape.store_ok, GetJson.rows_of_store. intros H.
  apply andb_prop in H; destruct H as [Hd Has].
  assert (Hdict : is_dict data = true).
  { unfold JsonShape.context_ok in Hd.
    apply andb_prop in Hd; destruct Hd as [Hd _].
    apply andb_prop in Hd; tauto. }
  destruct data; try discriminate Hdict. simpl in Has |- *.
  destruct (dict_lookup "search_result" entries) as [sr|]; [|discriminate Has].
  destruct sr; try discriminate Has. simpl in Has |- *.
  destruct (dict_lookup "aisles" entries0) as [v|]; [|discriminate Has].
  destruct v; try discriminate Has. simpl.
  apply concat_mapM_total. intros aisle Hin.
  apply json_rows_of_aisle_total; auto.
  rewrite forallb_forall in Has. now apply Has.
Qed.

Lemma create_data_total date stores :
  JsonShape.shaped stores = true ->
  is_ok (GetJson.create_data date (VList stores)) = true.
Proof.
  unfold JsonShape.shaped, GetJson.create_data; simpl. intros H.
  apply concat_mapM_total. intros data Hin.
  apply json_rows_of_store_total.
  rewrite forallb_forall in H. now apply H.
Qed.

Lemma py_get_step (Q : pyval -> bool) v key a :
  is_dict v = true ->
  match field key v with
  | Some x => is_dict x && Q x
  | None => true
  end = true ->
  Q (VDict []) = true ->
  py_get v key (VDict []) = Ok a -> is_dict a = true /\ Q a = true.
Proof.
  destruct v; simpl; try discriminate. intros _.
  destruct (dict_lookup key entries) as [x|]; intros H HQ E;
    inversion E; subst; [now apply andb_prop in H|auto].
Qed.

Lemma py_get_dict_or_absent v key a :
  is_dict v = true -> dict_or_absent (field key v) = true ->
  py_get v key (VDict []) = Ok a -> is_dict a = true.
Proof.
  destruct v; simpl; try discriminate. intros _.
  destruct (dict_lookup key entries) as [x|]; intros H E; inversion E; subst;
    [now destruct a|reflexivity].
Qed.

Lemma py_get_brand product a :
  is_dict product = true ->
  match field "brand" product with
  | Some (VDict _) => true
  | _ => false
  end = true ->
  py_get product "brand" (VList []) = Ok a -> is_dict a = true.
Proof.
  destruct product; simpl; try discriminate. intros _.
  destruct (dict_lookup "brand" entries) as [x|]; intros H E; [|discriminate H].
  inversion E; subst. now destruct a.
Qed.

Lemma prices_create_row_total date data aisle product :
  PricesShape.context_ok data = true -> is_dict aisle = true ->
  PricesShape.product_ok product = true ->
  is_ok (GetPrices.create_row date data aisle product) = true.
Proof.
  unfold PricesShape.context_ok, PricesShape.product_ok, GetPrices.create_row.
  intros Hd Ha Hp.
  apply andb_prop in Hd; destruct Hd as [Hd Hsr].
  apply andb_prop in Hd; destruct Hd as [Hd Hst].
  apply andb_prop in Hp; destruct Hp as [Hp Hpr].
  apply andb_prop in Hp; destruct Hp as [Hp Hbr].
  assert (Hstore : forall store, py_get data "store" (VDict []) = Ok store ->
            is_dict store = true
            /\ dict_or_absent (field "closest_branch" store) = true).
  { intros store.
    now apply (py_get_step (fun x => dict_or_absent (field "closest_branch" x))). }
  apply bind_total; [now apply py_get_total|intros pricing E1].
  destruct (py_get_step (fun x => dict_or_absent (field "price" x))
              product "pricing" pricing Hp Hpr eq_refl E1) as [Hpricing Hprice].
  apply bind_total; [now apply py_get_total|intros price E2].
  apply bind_total;
    [apply py_get_total;
     now apply (py_get_dict_or_absent pricing "price")|intros amount _].
  apply bind_total; [now apply py_get_total|intros package _].
  apply bind_total; [now apply py_get_total|intros search_result E3].
  apply bind_total;
    [apply py_get_total;
     now apply (py_get_dict_or_absent data "search_result")|intros search_term _].
  apply bind_total; [now apply py_get_total|intros brand E4].
  apply bind_total;
    [apply py_get_total; now apply (py_get_brand product)|intros brand_name _].
  apply bind_total; [now apply py_get_total|intros brand' E5].
  apply bind_total;
    [apply py_get_total; now apply (py_get_brand product)|intros brand_id _].
  apply bind_total; [now apply py_get_total|intros aisle_name _].
  apply bind_total; [now apply py_get_total|intros product_name _].
  apply bind_total; [now apply py_get_total|intros product_id _].
  apply bind_total; [now apply py_get_total|intros store E6].
  apply bind_total; [apply py_get_total; now apply Hstore|intros store_name _].
  apply bind_total; [now apply py_get_total|intros store' E7].
  apply bind_total; [apply py_get_total; now apply Hstore|intros store_id _].
  apply bind_total; [now apply py_get_total|intros store'' E8].
  destruct (Hstore store'' E8) as [Hs Hcb].
  apply bind_total; [now apply py_get_total|intros closest_branch E9].
  apply bind_total;
    [apply py_get_total;
     now apply (py_get_dict_or_absent store'' "closest_branch")|intros city _].
  reflexivity.
Qed.

Lemma prices_rows_of_aisle_total date data aisle :
  PricesShape.context_ok data = true -> PricesShape.aisle_ok aisle = true ->
  is_ok (GetPrices.rows_of_aisle date data aisle) = true.
Proof.
  unfold PricesShape.aisle_ok, GetPrices.rows_of_aisle. intros Hd Ha.
  apply andb_prop in Ha; destruct Ha as [Ha Hps].
  destruct aisle; try discriminate Ha. simpl in *.
  destruct (dict_lookup "products" entries) as [v|]; simpl; [|reflexivity].
  destruct v; try discriminate Hps. simpl.
  apply mapM_total. intros product Hin.
  apply prices_create_row_total; auto.
  rewrite forallb_forall in Hps. now apply Hps.
Qed.

Lemma prices_rows_of_store_total date data :
  PricesShape.store_ok data = true ->
  is_ok (GetPrices.rows_of_store date data) = true.
Proof.
  unfold PricesShape.store_ok, GetPrices.rows_of_store. intros H.
  apply andb_prop in H; destruct H as [Hd Has].
  assert (Hctx := Hd). unfold PricesShape.context_ok in Hd.
  apply andb_prop in Hd; destruct Hd as [Hd Hsr].
  apply andb_prop in Hd; destruct Hd as [Hdict _].
  destruct data; try discriminate Hdict. simpl in Has, Hsr |- *.
  destruct (dict_lookup "search_result" entries) as [sr|]; [|reflexivity].
  destruct sr; try discriminate Hsr. simpl in Has |- *.
  destruct (dict_lookup "aisles" entries0) as [v|]; [|reflexivity].
  destruct v; try discriminate Has. simpl.
  apply concat_mapM_total. intros aisle Hin.
  apply prices_rows_of_aisle_total; auto.
  rewrite forallb_forall in Has. now apply Has.
Qed.

Lemma create_dataframe_total date stores :
  PricesShape.shaped stores = true ->
  is_ok (GetPrices.create_dataframe date (VList stores)) = true.
Proof.
  unfold PricesShape.shaped, GetPrices.create_dataframe; simpl. intros H.
  apply concat_mapM_total. intros data Hin.
  apply prices_rows_of_store_total.
  rewrite forallb_forall in H. now apply H.
Qed.

(** ** The claims on the flatteners *)

(** C1. Two inputs on which a positive number of product occurrences
    yields no record at all. With a store that has no aisle list before
    the store of the scenario, the sum is one and [create_data] of
    [get_json.py] raises, where [create_dataframe] of [get_prices.py]
    returns the one row. With an aisle of two products, the second
    without brand, the sum is two and [create_dataframe] raises, where
    [create_data] returns the two rows. *)
Theorem flatten_loses_records (date : string) :
  (product_occurrences [store_without_aisles; scenario_store] = 1
   /\ GetJson.create_data date (VList [store_without_aisles; scenario_store])
      = Raise (TypeError "'NoneType' object is not iterable")
   /\ exists rows,
        GetPrices.create_dataframe date
          (VList [store_without_aisles; scenario_store]) = Ok rows
        /\ List.length rows = 1)
  /\ (product_occurrences [store_two_products] = 2
      /\ GetPrices.create_dataframe date (VList [store_two_products])
         = Raise (AttributeError "'list' object has no attribute 'get'")
      /\ exists rows,
           GetJson.create_data date (VList [store_two_products]) = Ok rows
           /\ List.length rows = 2).
Proof.
  split; (split; [reflexivity|]); (split; [reflexivity|]);
    eexists; split; reflexivity.
Qed.



(** C10. The flatteners emit the rows in the order of the nested
    traversal: what [create_data] and [create_dataframe] return is the
    flat map of their row constructor over the stores, then the aisles
    of each store, then the products of each aisle, and both return on
    well-shaped store results. *)
Theorem flatten_order (date : string) (stores : list pyval) :
  (forall rows, GetJson.create_data date (VList stores) = Ok rows ->
                map Ok rows = flat_rows (GetJson.create_row date) stores)
  /\ (forall rows, GetPrices.create_dataframe date (VList stores) = Ok rows ->
                   map Ok rows = flat_rows (GetPrices.create_row date) stores)
  /\ (JsonShape.shaped stores = true ->
      exists rows, GetJson.create_data date (VList stores) = Ok rows
                   /\ map Ok rows = flat_rows (GetJson.create_row date) stores)
  /\ (PricesShape.shaped stores = true ->
      exists rows, GetPrices.create_dataframe date (VList stores) = Ok rows
                   /\ map Ok rows = flat_rows (GetPrices.create_row date) stores).
Proof.
  repeat split.
  - apply create_data_order.
  - apply create_dataframe_order.
  - intros Hs. destruct (is_ok_true _ (create_data_total date stores Hs)) as [rows E].
    exists rows. split; [exact E|now apply create_data_order].
  - intros Hs.
    destruct (is_ok_true _ (create_dataframe_total date stores Hs)) as [rows E].
    exists rows. split; [exact E|now apply create_dataframe_order].
Qed.

Lemma flatten_order_witness :
  (exists rows,
     GetJson.create_data "04-11-2026" (VList (scenario_results ++ scenario_results))
     = Ok rows
     /\ map Ok rows
        = flat_rows (GetJson.create_row "04-11-2026")
                    (scenario_results ++ scenario_results))
  /\ (exists rows,
        GetPrices.create_dataframe "2026-11-04"
          (VList (scenario_results ++ scenario_results)) = Ok rows
        /\ map Ok rows
           = flat_rows (GetPrices.create_row "2026-11-04")
                       (scenario_results ++ scenario_results)).
Proof.
  split.
  - destruct (flatten_order "04-11-2026" (scenario_results ++ scenario_results))
      as (_ & _ & Hj & _).
    apply Hj. reflexivity.
  - destruct (flatten_order "2026-11-04" (scenario_results ++ scenario_results))
      as (_ & _ & _ & Hp).
    apply Hp. reflexivity.
Defined.

(** C5. The end-to-end scenario: flattening the [results] of the sample
    response yields exactly one record, whose product name is "Milk 1L",
    price 5.5, store name "S1", store city "X" and search term "milk". *)
Theorem scenario_one_record (date : string) :
  py_get scenario_response "results" (VList []) = Ok (VList scenario_results)
  /\ exists row,
       GetJson.create_data date (VList scenario_results) = Ok [row]
       /\ field "product_name" row = Some (VStr "Milk 1L")
       /\ field "price" row = Some (VFloat 5.5)
       /\ field "store_name" row = Some (VStr "S1")
       /\ field "store_city" row = Some (VStr "X")
       /\ field "search_term" row = Some (VStr "milk").
Proof.
  split; [reflexivity|].
  eexists. split; [reflexivity|]. repeat split.
Qed.

(** ** The safe navigation helper *)

Lemma get_nested_walk (v : pyval) (keys : list string) :
  GetJson.get_nested v keys =
  match walk v keys with
  | Reached x => Ok x
  | Missing => Ok VNone
  | Blocked x => Raise (no_attribute_get x)
  end.
Proof.
  revert v; induction keys as [|key keys IH]; intros v; [reflexivity|].
  destruct v; simpl; try reflexivity.
  destruct (dict_lookup key entries) as [x|]; simpl.
  - apply IH.
  - now destruct keys.
Qed.

Lemma get_nested_None (keys : list string) :
  GetJson.get_nested VNone keys = Ok VNone.
Proof. now destruct keys. Qed.

Lemma get_nested_app (v : pyval) (keys more : list string) :
  GetJson.get_nested v (keys ++ more) =
  x <- GetJson.get_nested v keys ;; GetJson.get_nested x more.
Proof.
  revert v; induction keys as [|key keys IH]; intros v; [reflexivity|].
  simpl. destruct (is_None v).
  - simpl. now rewrite get_nested_None.
  - destruct (py_get v key VNone) as [x|e]; simpl; [apply IH|reflexivity].
Qed.

(** C4, as stated, fails: under a root dictionary, a step that reaches a
    number with a key still to follow raises. *)
Lemma get_nested_raises_on_scalar :
  GetJson.get_nested (VDict [("a", VInt 5)]) ["a"; "b"]
  = Raise (AttributeError "'int' object has no attribute 'get'").
Proof. reflexivity. Qed.

(** C4, amended. For every root dictionary and every sequence of keys,
    [get_nested] returns null when a step of the chain is absent or null,
    and stays null whatever keys follow; it returns the value reached
    when the whole chain can be followed; and it raises [AttributeError]
    when a step reaches a value that is neither null nor a dictionary
    while keys remain. *)
Theorem get_nested_navigation (entries : list (string * pyval))
  (keys : list string) :
  GetJson.get_nested (VDict entries) keys =
  match walk (VDict entries) keys with
  | Reached x => Ok x
  | Missing => Ok VNone
  | Blocked x => Raise (no_attribute_get x)
  end
  /\ (forall more,
        GetJson.get_nested (VDict entries) keys = Ok VNone ->
        GetJson.get_nested (VDict entries) (keys ++ more) = Ok VNone).
Proof.
  split; [apply get_nested_walk|].
  intros more H. rewrite get_nested_app, H. simpl. apply get_nested_None.
Qed.

Lemma get_nested_navigation_witness :
  GetJson.get_nested bare_product (["brand"] ++ ["name"]) = Ok VNone.
Proof.
  apply (proj2 (get_nested_navigation
                  [("name", VStr "Milk 1L"); ("id", VInt 9)] ["brand"])).
  reflexivity.
Defined.

(** ** Rows of products with missing fields *)

Lemma bind_fails {A B : Type} (m : result A) (k : A -> result B) :
  (forall a, m = Ok a -> is_ok (k a) = false) -> is_ok (bind m k) = false.
Proof. destruct m; simpl; intros H; [now apply H|reflexivity]. Qed.

Lemma concat_mapM_fails {A B : Type} (f : A -> result (list B)) (l : list A)
  (x : A) :
  In x l -> is_ok (f x) = false -> is_ok (concat_mapM f l) = false.
Proof.
  induction l as [|y l IH]; simpl; [tauto|]. intros [->|Hin] Hx.
  - destruct (f x); [discriminate Hx|reflexivity].
  - destruct (f y); [|reflexivity]. simpl.
    specialize (IH Hin Hx). now destruct (concat_mapM f l).
Qed.

(** In [get_prices.py] a product without [brand] never gets a row:
    the default of the lookup is a list, which has no [get]. *)
Lemma prices_create_row_needs_brand date data aisle product :
  field "brand" product = None ->
  is_ok (GetPrices.create_row date data aisle product) = false.
Proof.
  intros Hb. unfold GetPrices.create_row.
  do 6 (apply bind_fails; intros ? _).
  apply bind_fails; intros brand E.
  assert (brand = VList []) as ->.
  { destruct product; simpl in *; try discriminate E.
    rewrite Hb in E. now inversion E. }
  reflexivity.
Qed.

(** In [get_json.py] the row of a product reads null where [brand],
    [pricing] or [package] is absent or null. *)
Lemma json_create_row_placeholders date data aisle product row :
  GetJson.create_row date data aisle product = Ok row ->
  (absent_or_null (field "brand" product) = true ->
   field "brand" row = Some VNone)
  /\ (absent_or_null (field "pricing" product) = true ->
      field "price" row = Some VNone)
  /\ (absent_or_null (field "package" product) = true ->
      field "package" row = Some VNone).
Proof.
  unfold GetJson.create_row. intros H.
  destruct (py_get aisle "aisle_name" VNone) as [aisle_name|]; [|discriminate H].
  destruct (py_get product "name" VNone) as [product_name|] eqn:En;
    [|discriminate H].
  destruct product; try discriminate En.
  cbn [bind] in H.
  destruct (GetJson.get_nested (VDict entries) ["brand"; "name"]) as [brand|] eqn:Eb;
    [|discriminate H].
  destruct (GetJson.get_nested (VDict entries) ["pricing"; "price"; "amount"])
    as [price|] eqn:Ep; [|discriminate H].
  destruct (py_get (VDict entries) "package" VNone) as [package|] eqn:Ek;
    [|discriminate H].
  cbn [bind] in H.
  destruct (GetJson.get_nested data ["store"; "name"]); [|discriminate H].
  destruct (GetJson.get_nested data ["store"; "closest_branch"; "city"]);
    [|discriminate H].
  destruct (GetJson.get_nested data ["search_result"; "search_term"]);
    [|discriminate H].
  cbn [bind] in H. inversion H; subst; clear H. simpl in *. repeat split.
  - destruct (dict_lookup "brand" entries) as [[]|]; try discriminate;
      intros _; simpl in Eb; now inversion Eb.
  - destruct (dict_lookup "pricing" entries) as [[]|]; try discriminate;
      intros _; simpl in Ep; now inversion Ep.
  - destruct (dict_lookup "package" entries) as [[]|]; try discriminate;
      intros _; now inversion Ek.
Qed.

(** In [get_prices.py] a null [pricing] raises as well: the default of
    a lookup replaces an absent key only. *)
Lemma prices_create_row_null_pricing date :
  GetPrices.create_row date scenario_store scenario_aisle
    (VDict [ ("name", VStr "Milk 1L");
             ("brand", VDict [("name", VStr "B")]);
             ("pricing", VNone) ])
  = Raise (AttributeError "'NoneType' object has no attribute 'get'").
Proof. reflexivity. Qed.

(** C2. The product of the scenario stripped of [brand], [pricing] and
    [package]: the row constructor of [get_prices.py] raises
    [AttributeError] on it, where the one of [get_json.py] builds the row
    with null in the three fields. *)
Theorem create_row_without_brand (date : string) :
  GetPrices.create_row date scenario_store scenario_aisle bare_product
  = Raise (AttributeError "'list' object has no attribute 'get'")
  /\ exists row,
       GetJson.create_row date scenario_store scenario_aisle bare_product = Ok row
       /\ field "brand" row = Some VNone
       /\ field "price" row = Some VNone
       /\ field "package" row = Some VNone.
Proof.
  split; [reflexivity|].
  eexists. split; [reflexivity|]. repeat split.
Qed.

(** ** Stores without an aisle list *)

(** In [get_json.py] one store whose aisle list is absent or null makes
    the whole flattening raise. *)
Lemma create_data_needs_aisles date stores data :
  In data stores ->
  GetJson.get_nested data ["search_result"; "aisles"] = Ok VNone ->
  is_ok (GetJson.create_data date (VList stores)) = false.
Proof.
  intros Hin Ha. unfold GetJson.create_data; simpl.
  apply (concat_mapM_fails _ _ data Hin).
  unfold GetJson.rows_of_store. now rewrite Ha.
Qed.

(** In [get_prices.py] a store whose aisle list is absent gives no row. *)
Lemma prices_rows_of_store_absent_aisles date data :
  is_dict data = true ->
  match field "search_result" data with
  | Some search_result =>
      is_dict search_result && match field "aisles" search_result with
                               | None => true
                               | Some _ => false
                               end
  | None => true
  end = true ->
  GetPrices.rows_of_store date data = Ok [].
Proof.
  unfold GetPrices.rows_of_store.
  destruct data; simpl; try discriminate. intros _.
  destruct (dict_lookup "search_result" entries) as [sr|]; simpl; [|reflexivity].
  destruct sr; simpl; try discriminate.
  now destruct (dict_lookup "aisles" entries0).
Qed.

(** In both scripts an aisle list that is present and null raises. *)
Lemma null_aisles_raise date :
  let store := VDict [("search_result", VDict [("aisles", VNone)])] in
  GetJson.create_data date (VList [store])
  = Raise (TypeError "'NoneType' object is not iterable")
  /\ GetPrices.create_dataframe date (VList [store])
     = Raise (TypeError "'NoneType' object is not iterable").
Proof. split; reflexivity. Qed.

(** C3. A store result with no aisle list, followed by the store of the
    scenario: [create_data] of [get_json.py] raises [TypeError] and
    returns no record at all, where [create_dataframe] of [get_prices.py]
    skips the first store and returns the row of the second. *)
Theorem create_data_without_aisles (date : string) :
  GetJson.create_data date (VList [store_without_aisles; scenario_store])
  = Raise (TypeError "'NoneType' object is not iterable")
  /\ exists row,
       GetPrices.create_dataframe date (VList [store_without_aisles; scenario_store])
       = Ok [row]
       /\ field "Store Name" row = Some (VStr "S1").
Proof.
  split; [reflexivity|].
  eexists. split; reflexivity.
Qed.

(** ** The exporter *)

Lemma string_mem_In (s : string) (l : list string) :
  string_mem s l = true <-> In s l.
Proof.
  unfold string_mem. rewrite existsb_exists. split.
  - intros [x [Hin Heq]]. apply String.eqb_eq in Heq. now subst.
  - intros Hin. exists s. split; [exact Hin|apply String.eqb_refl].
Qed.

Lemma os_makedirs_creates e path w w' :
  os_makedirs e path w = (Ok tt, w') ->
  In path (dirs w') /\ files w' = files w.
Proof.
  unfold os_makedirs. destruct (makedirs_fails e path); [discriminate|].
  intros H; inversion H; subst; clear H. simpl. split; [|reflexivity].
  destruct (string_mem path (dirs w)) eqn:E.
  - now apply string_mem_In.
  - apply in_or_app. right. now left.
Qed.

(** C6. A format selector outside csv, parquet and json makes
    [export_data] raise the unsupported-format error and leave the world
    as it was: no directory, no file, no log record. A supported
    selector passes the check: the directory is created first, and the
    outcome is the one of the directory creation and of the write. *)
Theorem export_data_format_check (e : env) (df : list pyval)
  (dir_path base_name format : string) (w : world) :
  (~ In format GetPrices.supported_formats ->
   GetPrices.export_data e df dir_path base_name format w
   = (Raise (GetPrices.unsupported_format format), w))
  /\ (In format GetPrices.supported_formats ->
      let out := GetPrices.export_data e df dir_path base_name format w in
      match makedirs_fails e dir_path with
      | Some err => out = (Raise err, w)
      | None =>
          In dir_path (dirs (snd out))
          /\ match write_fails e (export_path e dir_path base_name format) with
             | Some err => fst out = Raise err
             | None =>
                 fst out = Ok tt
                 /\ exists content,
                      In (export_path e dir_path base_name format, content)
                         (files (snd out))
             end
      end).
Proof.
  split.
  - intros Hn. unfold GetPrices.export_data.
    destruct (string_mem format GetPrices.supported_formats) eqn:E;
      [|reflexivity].
    apply string_mem_In in E. contradiction.
  - intros Hin out.
    assert (Hw : exists content,
               (if String.eqb format "csv"
                then write_file e (export_path e dir_path base_name format)
                       (CsvFile df)
                else if String.eqb format "parquet"
                then write_file e (export_path e dir_path base_name format)
                       (ParquetFile df)
                else if String.eqb format "json"
                then write_file e (export_path e dir_path base_name format)
                       (JsonLinesFile df)
                else ret tt)
               = write_file e (export_path e dir_path base_name format) content).
    { simpl in Hin. destruct Hin as [<-|[<-|[<-|[]]]]; simpl; eauto. }
    destruct Hw as [content Hw].
    assert (Eout : out = GetPrices.export_data e df dir_path base_name format w)
      by reflexivity.
    clearbody out. unfold GetPrices.export_data in Eout.
    rewrite (proj2 (string_mem_In _ _) Hin) in Eout.
    cbn [negb] in Eout. cbv zeta in Eout.
    fold (export_path e dir_path base_name format) in Eout.
    rewrite Hw in Eout.
    unfold bindM at 1 in Eout.
    destruct (os_makedirs e dir_path w) as [[[]|err] w1] eqn:Em.
    + destruct (os_makedirs_creates _ _ _ _ Em) as [Hd Hf].
      unfold os_makedirs in Em.
      destruct (makedirs_fails e dir_path); [discriminate Em|].
      unfold catch, bindM, write_file, logging, raise in Eout.
      destruct (write_fails e (export_path e dir_path base_name format));
        subst out; simpl; (split; [exact Hd|]).
      * reflexivity.
      * split; [reflexivity|]. exists content.
        apply in_or_app. right. now left.
    + unfold os_makedirs in Em.
      destruct (makedirs_fails e dir_path); inversion Em; now subst.
Qed.

Lemma export_data_format_check_witness :
  GetPrices.export_data env_scenario [] "./data/" "product_data" "xml" world0
  = (Raise (GetPrices.unsupported_format "xml"), world0)
  /\ (fst (GetPrices.export_data env_scenario [] "./data/" "product_data" "csv"
             world0) = Ok tt).
Proof.
  split.
  - apply (proj1 (export_data_format_check env_scenario [] "./data/"
                    "product_data" "xml" world0)).
    simpl. intuition discriminate.
  - assert (H : In "csv" GetPrices.supported_formats) by (simpl; auto).
    apply (proj2 (export_data_format_check env_scenario [] "./data/"
                    "product_data" "csv" world0)) in H.
    exact (proj1 (proj2 H)).
Defined.

(** ** The fetchers and the pipelines *)

Lemma json_fetch_failure e query locality country w :
  fetch_fails (http e query locality country) = true ->
  exists w',
    GetJson.get_product_data e query locality country w
    = (Raise (APIError GetJson.fetch_failed), w')
    /\ dirs w' = dirs w /\ files w' = files w.
Proof.
  unfold GetJson.get_product_data, requests_get, raise_for_status, fetch_fails.
  unfold bindM, catch, sleep. simpl.
  destruct (http e query locality country) as [msg|r]; simpl.
  - intros _. eexists. repeat split.
  - intros ->. simpl. eexists. repeat split.
Qed.

Lemma prices_fetch_failure e query cep country w :
  fetch_fails (http e query (VInt cep) country) = true ->
  exists w',
    GetPrices.get_product_data e query cep country w = (Ok VNone, w')
    /\ dirs w' = dirs w /\ files w' = files w.
Proof.
  unfold GetPrices.get_product_data, requests_get, raise_for_status, fetch_fails.
  unfold bindM, catch. simpl.
  destruct (http e query (VInt cep) country) as [msg|r]; simpl.
  - intros _. eexists. repeat split.
  - intros ->. simpl. eexists. repeat split.
Qed.

Lemma get_and_create_fetch_failure e query code country base_dir w :
  fetch_fails (http e query (VStr code) country) = true ->
  exists w',
    GetJson.get_and_create e query code country base_dir w
    = (Raise (APIError GetJson.fetch_failed), w')
    /\ dirs w' = dirs w /\ files w' = files w.
Proof.
  intros H.
  destruct (json_fetch_failure e query (VStr code) country
              (snd (print "Fetching product data..." w)) H)
    as (w' & E & Hd & Hf).
  exists w'. unfold GetJson.get_and_create. unfold bindM at 1.
  change (print "Fetching product data..." w)
    with (Ok tt, snd (print "Fetching product data..." w)).
  unfold bindM at 1. rewrite E. auto.
Qed.

Lemma fetch_and_export_fetch_failure e query cep country dir_path base_name
  format w :
  fetch_fails (http e query (VInt cep) country) = true ->
  exists w',
    GetPrices.fetch_and_export_product_data e query cep country dir_path
      base_name format w = (Ok tt, w')
    /\ dirs w' = dirs w /\ files w' = files w.
Proof.
  intros H.
  destruct (prices_fetch_failure e query cep country w H) as (w' & E & Hd & Hf).
  unfold GetPrices.fetch_and_export_product_data, bindM. rewrite E. simpl.
  eexists. repeat split; assumption.
Qed.

Lemma json_fetch_failure_world e query locality country w :
  fetch_fails (http e query locality country) = true ->
  GetJson.get_product_data e query locality country w
  = (Raise (APIError GetJson.fetch_failed),
     with_log ERROR json_error_text
       (Some (fetch_error (http e query locality country)))
       (with_sleep 2 w)).
Proof.
  unfold GetJson.get_product_data, requests_get, raise_for_status, fetch_fails,
    fetch_error.
  unfold bindM, catch, sleep. simpl.
  destruct (http e query locality country) as [msg|r]; simpl.
  - reflexivity.
  - now intros ->.
Qed.

Lemma prices_fetch_failure_world e query cep country w :
  fetch_fails (http e query (VInt cep) country) = true ->
  GetPrices.get_product_data e query cep country w
  = (Ok VNone,
     with_log ERROR
       (prices_error_text (fetch_error (http e query (VInt cep) country)))
       (Some (fetch_error (http e query (VInt cep) country))) w).
Proof.
  unfold GetPrices.get_product_data, requests_get, raise_for_status, fetch_fails,
    fetch_error.
  unfold bindM, catch. simpl.
  destruct (http e query (VInt cep) country) as [msg|r]; simpl.
  - reflexivity.
  - now intros ->.
Qed.

Lemma get_and_create_fetch_failure_world e query code country base_dir w :
  fetch_fails (http e query (VStr code) country) = true ->
  GetJson.get_and_create e query code country base_dir w
  = (Raise (APIError GetJson.fetch_failed),
     with_log ERROR json_error_text
       (Some (fetch_error (http e query (VStr code) country)))
       (with_sleep 2 (with_line "Fetching product data..." w))).
Proof.
  intros H. unfold GetJson.get_and_create. unfold bindM at 1.
  change (print "Fetching product data..." w)
    with (Ok tt, with_line "Fetching product data..." w).
  unfold bindM at 1.
  now rewrite (json_fetch_failure_world _ _ _ _ _ H).
Qed.

Lemma fetch_and_export_fetch_failure_world e query cep country dir_path
  base_name format w :
  fetch_fails (http e query (VInt cep) country) = true ->
  GetPrices.fetch_and_export_product_data e query cep country dir_path
    base_name format w
  = (Ok tt,
     with_log WARNING "No data returned." None
       (with_log ERROR
          (prices_error_text (fetch_error (http e query (VInt cep) country)))
          (Some (fetch_error (http e query (VInt cep) country))) w)).
Proof.
  intros H. unfold GetPrices.fetch_and_export_product_data, bindM.
  now rewrite (prices_fetch_failure_world _ _ _ _ _ H).
Qed.

(** On a transport error [get_product_data] of [get_prices.py] returns
    [None] instead of raising. *)
Lemma prices_fetch_failure_returns_None :
  fetch_fails (http env_down "milk" (VInt 88010560) "BR") = true
  /\ fst (GetPrices.get_product_data env_down "milk" 88010560 "BR" world0)
     = Ok VNone
  /\ forall err,
       fst (GetPrices.get_product_data env_down "milk" 88010560 "BR" world0)
       <> Raise err.
Proof. repeat split. intros err H. discriminate H. Qed.

(** C8, as stated, fails twice. On a transport error [get_product_data]
    of [get_prices.py] returns [None] instead of raising. And a status
    outside the success class is not always a failure: on a 300 with a
    JSON body both fetchers return the body, and [get_and_create] goes on
    to flatten it and to write the file. *)
Lemma fetch_failure_counterexample :
  (fetch_fails (http env_down "milk" (VInt 88010560) "BR") = true
   /\ fst (GetPrices.get_product_data env_down "milk" 88010560 "BR" world0)
      = Ok VNone
   /\ forall err,
        fst (GetPrices.get_product_data env_down "milk" 88010560 "BR" world0)
        <> Raise err)
  /\ (success_status 300 = false
      /\ fst (GetJson.get_product_data env_multiple_choices "milk"
                (VStr "88010560") "BR" world0) = Ok scenario_response
      /\ fst (GetPrices.get_product_data env_multiple_choices "milk" 88010560
                "BR" world0) = Ok scenario_response
      /\ exists rows,
           files (snd (GetJson.get_and_create env_multiple_choices "milk"
                         "88010560" "BR" "/srv" world0))
           = [("/srv/data/milk_88010560_20261104-120000.json",
               JsonFile (VList rows))]
           /\ List.length rows = 1).
Proof.
  split.
  - repeat split. intros err H. discriminate H.
  - do 3 (split; [reflexivity|]).
    eexists. split; reflexivity.
Qed.

(** C8, amended. When the fetch ends in a transport error or in a 4xx
    or 5xx status -- the statuses [raise_for_status] rejects --
    [get_product_data] of [get_json.py] logs one error record and raises
    [APIError], which [get_and_create] propagates; [get_product_data] of
    [get_prices.py] logs one error record and returns [None], and
    [fetch_and_export_product_data] then logs the warning that no data
    was returned and returns. In both scripts nothing is flattened or
    exported: no directory and no file is created. *)
Theorem fetch_failure_no_output (e : env) (query code country base_dir : string)
  (cep : Z) (dir_path base_name format : string) (w : world) :
  (fetch_fails (http e query (VStr code) country) = true ->
   let err := fetch_error (http e query (VStr code) country) in
   GetJson.get_product_data e query (VStr code) country w
   = (Raise (APIError GetJson.fetch_failed),
      with_log ERROR json_error_text (Some err) (with_sleep 2 w))
   /\ let out := GetJson.get_and_create e query code country base_dir w in
      out = (Raise (APIError GetJson.fetch_failed),
             with_log ERROR json_error_text (Some err)
               (with_sleep 2 (with_line "Fetching product data..." w)))
      /\ dirs (snd out) = dirs w /\ files (snd out) = files w)
  /\ (fetch_fails (http e query (VInt cep) country) = true ->
      let err := fetch_error (http e query (VInt cep) country) in
      GetPrices.get_product_data e query cep country w
      = (Ok VNone, with_log ERROR (prices_error_text err) (Some err) w)
      /\ let out := GetPrices.fetch_and_export_product_data
                      e query cep country dir_path base_name format w in
         out = (Ok tt,
                with_log WARNING "No data returned." None
                  (with_log ERROR (prices_error_text err) (Some err) w))
         /\ dirs (snd out) = dirs w /\ files (snd out) = files w).
Proof.
  split; intros H; cbv zeta.
  - rewrite (json_fetch_failure_world _ _ _ _ _ H).
    rewrite (get_and_create_fetch_failure_world _ _ _ _ base_dir _ H).
    repeat split.
  - rewrite (prices_fetch_failure_world _ _ _ _ _ H).
    rewrite (fetch_and_export_fetch_failure_world _ _ _ _ dir_path base_name
               format _ H).
    repeat split.
Qed.

Lemma fetch_failure_no_output_witness :
  GetJson.get_and_create env_not_found "milk" "88010560" "BR" "." world0
  = (Raise (APIError GetJson.fetch_failed),
     with_log ERROR json_error_text (Some (HTTPError 404))
       (with_sleep 2 (with_line "Fetching product data..." world0)))
  /\ GetPrices.fetch_and_export_product_data env_down "milk" 88010560 "BR"
       "./data/" "product_data" "csv" world0
     = (Ok tt,
        with_log WARNING "No data returned." None
          (with_log ERROR "Other Requests error occurred"
             (Some (RequestException "connection refused")) world0)).
Proof.
  split.
  - refine (proj1 (proj2 (proj1 (fetch_failure_no_output env_not_found "milk"
                                   "88010560" "BR" "." 88010560 "./data/"
                                   "product_data" "csv" world0) _))).
    reflexivity.
  - refine (proj1 (proj2 (proj2 (fetch_failure_no_output env_down "milk"
                                   "88010560" "BR" "." 88010560 "./data/"
                                   "product_data" "csv" world0) _))).
    reflexivity.
Defined.

Lemma json_invalid_body e query locality country w :
  is_ValueError (json_decode_error e) = true ->
  body_unparsable (http e query locality country) = true ->
  fst (GetJson.get_product_data e query locality country w)
  = Raise (APIError GetJson.invalid_json).
Proof.
  unfold GetJson.get_product_data, requests_get, raise_for_status,
    response_json, body_unparsable.
  unfold bindM, catch, sleep. simpl. intros Hv.
  destruct (http e query locality country) as [msg|[status [v|]]]; simpl;
    try discriminate.
  - rewrite andb_false_r. discriminate.
  - destruct ((400 <=? status)%Z && (status <? 600)%Z); simpl;
      [discriminate|]. intros _.
    unfold raise. now rewrite Hv.
Qed.

Lemma prices_invalid_body e query cep country w :
  body_unparsable (http e query (VInt cep) country) = true ->
  fst (GetPrices.get_product_data e query cep country w)
  = if is_RequestException (json_decode_error e) then Ok VNone
    else Raise (json_decode_error e).
Proof.
  unfold GetPrices.get_product_data, requests_get, raise_for_status,
    response_json, body_unparsable.
  unfold bindM, catch. simpl.
  destruct (http e query (VInt cep) country) as [msg|[status [v|]]]; simpl;
    try discriminate.
  - rewrite andb_false_r. discriminate.
  - destruct ((400 <=? status)%Z && (status <? 600)%Z); simpl;
      [discriminate|]. intros _.
    unfold raise.
    destruct (json_decode_error e); reflexivity.
Qed.






(** In [get_prices.py] a [results] that is not a list stops the pipeline
    before the flattening: a warning is logged and nothing else
    happens. *)
Lemma fetch_and_export_results_guard e query cep country dir_path base_name
  format w status raw results :
  http e query (VInt cep) country
  = Responded {| status_code := status; body := Some raw |} ->
  ((400 <=? status)%Z && (status <? 600)%Z) = false ->
  truthy raw = true ->
  py_get raw "results" (VList []) = Ok results ->
  is_list results = false ->
  GetPrices.fetch_and_export_product_data e query cep country dir_path
    base_name format w
  = logging WARNING
      "'results' is not present or not a list in the returned data." None w.
Proof.
  intros Hh Hs Ht Hr Hl.
  unfold GetPrices.fetch_and_export_product_data, GetPrices.get_product_data,
    requests_get, raise_for_status, response_json.
  rewrite Hh. unfold bindM, catch, ret, lift. simpl. rewrite Hs. simpl.
  rewrite Ht, Hr. simpl. now rewrite Hl.
Qed.

(** In both scripts an absent [results] is read as the empty list, which
    flattens to no record. *)
Lemma absent_results_no_record date raw results :
  is_dict raw = true -> field "results" raw = None ->
  py_get raw "results" (VList []) = Ok results ->
  GetJson.create_data date results = Ok []
  /\ GetPrices.create_dataframe date results = Ok [].
Proof.
  destruct raw; simpl; try discriminate. intros _ ->.
  intros E; inversion E; subst. split; reflexivity.
Qed.

(** C7. A response whose [results] is null: [get_and_create] of
    [get_json.py] raises [TypeError] in its flattening and writes no
    file, where [fetch_and_export_product_data] of [get_prices.py] logs
    a warning and returns. *)
Theorem get_and_create_null_results :
  fst (GetJson.get_and_create env_null_results "milk" "88010560" "BR" "." world0)
  = Raise (TypeError "'NoneType' object is not iterable")
  /\ files (snd (GetJson.get_and_create env_null_results "milk" "88010560" "BR"
                   "." world0)) = []
  /\ GetPrices.fetch_and_export_product_data env_null_results "milk" 88010560
       "BR" "./data/" "product_data" "csv" world0
     = logging WARNING
         "'results' is not present or not a list in the returned data." None
         world0.
Proof. repeat split. Qed.

(** ** More on the safe navigation helper *)

(** X1. Navigation composes: following [keys ++ more] from a value is
    following [keys], then [more] from the value obtained. *)
Theorem get_nested_compose (v : pyval) (keys more : list string) :
  GetJson.get_nested v (keys ++ more) =
  x <- GetJson.get_nested v keys ;; GetJson.get_nested x more.
Proof. apply get_nested_app. Qed.

(** X2. A result of [get_nested] that is not null is the value stored
    at the end of the chain: every key of the chain is present. *)
Theorem get_nested_sound (v : pyval) (keys : list string) (x : pyval) :
  GetJson.get_nested v keys = Ok x -> x <> VNone -> walk v keys = Reached x.
Proof.
  rewrite get_nested_walk. intros H Hx.
  destruct (walk v keys); inversion H; subst; [reflexivity|contradiction].
Qed.

Lemma get_nested_sound_witness :
  walk scenario_product ["pricing"; "price"; "amount"] = Reached (VFloat 5.5).
Proof.
  apply get_nested_sound; [reflexivity|discriminate].
Defined.

(** ** More on the fetchers *)

Lemma json_fetch_cases e query locality country w :
  let out := GetJson.get_product_data e query locality country w in
  snd out = with_sleep 2 w
  \/ exists err, snd out = with_log ERROR
                             "Error occurred while fetching product data"
                             (Some err) (with_sleep 2 w).
Proof.
  unfold GetJson.get_product_data, requests_get, raise_for_status, response_json.
  unfold bindM, catch, sleep, with_sleep, with_log. simpl.
  destruct (http e query locality country) as [msg|[status [v|]]]; simpl.
  - right. eexists. reflexivity.
  - destruct ((400 <=? status)%Z && (status <? 600)%Z); simpl;
      [right; eexists; reflexivity|now left].
  - destruct ((400 <=? status)%Z && (status <? 600)%Z); simpl;
      [right; eexists; reflexivity|].
    unfold raise. destruct (is_ValueError (json_decode_error e)); now left.
Qed.

(** X3. [get_product_data] of [get_json.py] waits two seconds on every
    call, whatever the outcome of the request, and touches neither the
    directories, the files nor the standard output. *)
Theorem json_fetch_waits (e : env) (query : string) (locality : pyval)
  (country : string) (w : world) :
  let out := GetJson.get_product_data e query locality country w in
  slept (snd out) = (slept w + 2)%Z
  /\ dirs (snd out) = dirs w
  /\ files (snd out) = files w
  /\ stdout (snd out) = stdout w.
Proof.
  destruct (json_fetch_cases e query locality country w) as [H|[err H]];
    cbv zeta; rewrite H; repeat split.
Qed.

Lemma json_fetch_success e query locality country w status raw :
  http e query locality country
  = Responded {| status_code := status; body := Some raw |} ->
  status_ok status = true ->
  GetJson.get_product_data e query locality country w
  = (Ok raw, with_sleep 2 w).
Proof.
  unfold status_ok, GetJson.get_product_data, requests_get, raise_for_status,
    response_json.
  intros -> Hs. unfold bindM, catch, sleep, with_sleep. simpl.
  apply negb_true_iff in Hs. rewrite Hs. reflexivity.
Qed.

Lemma prices_fetch_success e query cep country w status raw :
  http e query (VInt cep) country
  = Responded {| status_code := status; body := Some raw |} ->
  status_ok status = true ->
  GetPrices.get_product_data e query cep country w = (Ok raw, w).
Proof.
  unfold status_ok, GetPrices.get_product_data, requests_get, raise_for_status,
    response_json.
  intros -> Hs. unfold bindM, catch. simpl.
  apply negb_true_iff in Hs. rewrite Hs. reflexivity.
Qed.

(** X4. When the endpoint answers with an accepted status and a body
    that is JSON, both fetchers return the parsed body as it is; the one
    of [get_prices.py] leaves the world untouched, the one of
    [get_json.py] has only slept two seconds. *)
Theorem fetch_success_returns_body (e : env) (query : string)
  (locality : pyval) (cep : Z) (country : string) (w : world)
  (status : Z) (raw : pyval) :
  status_ok status = true ->
  (http e query locality country
   = Responded {| status_code := status; body := Some raw |} ->
   GetJson.get_product_data e query locality country w
   = (Ok raw, with_sleep 2 w))
  /\ (http e query (VInt cep) country
      = Responded {| status_code := status; body := Some raw |} ->
      GetPrices.get_product_data e query cep country w = (Ok raw, w)).
Proof.
  intros Hs. split; intros Hh.
  - now apply (json_fetch_success _ _ _ _ _ status).
  - now apply (prices_fetch_success _ _ _ _ _ status).
Qed.

Lemma fetch_success_returns_body_witness :
  GetJson.get_product_data env_scenario "milk" (VStr "88010560") "BR" world0
  = (Ok scenario_response, with_sleep 2 world0)
  /\ GetPrices.get_product_data env_scenario "milk" 88010560 "BR" world0
     = (Ok scenario_response, world0).
Proof.
  destruct (fetch_success_returns_body env_scenario "milk" (VStr "88010560")
              88010560 "BR" world0 200 scenario_response eq_refl) as [Hj Hp].
  split; [apply Hj|apply Hp]; reflexivity.
Defined.

(** X5. [get_product_data] of [get_prices.py] never raises, provided the
    decoding error of the requests library is a [RequestException]: every
    failure is turned into [None], and neither the directories, the files
    nor the standard output change. *)
Theorem prices_fetch_never_raises (e : env) (query : string) (cep : Z)
  (country : string) (w : world) :
  is_RequestException (json_decode_error e) = true ->
  let out := GetPrices.get_product_data e query cep country w in
  is_ok (fst out) = true
  /\ dirs (snd out) = dirs w
  /\ files (snd out) = files w
  /\ stdout (snd out) = stdout w
  /\ slept (snd out) = slept w.
Proof.
  intros Hd.
  unfold GetPrices.get_product_data, requests_get, raise_for_status,
    response_json.
  unfold bindM, catch. simpl.
  destruct (http e query (VInt cep) country) as [msg|[status [v|]]]; simpl.
  - repeat split.
  - destruct ((400 <=? status)%Z && (status <? 600)%Z); simpl; repeat split.
  - destruct ((400 <=? status)%Z && (status <? 600)%Z); simpl;
      [repeat split|].
    unfold raise. rewrite Hd.
    destruct (is_HTTPError (json_decode_error e)); simpl; repeat split.
Qed.

Lemma prices_fetch_never_raises_witness :
  is_ok (fst (GetPrices.get_product_data env_garbled "milk" 88010560 "BR" world0))
  = true.
Proof.
  exact (proj1 (prices_fetch_never_raises env_garbled "milk" 88010560 "BR"
                  world0 eq_refl)).
Defined.

(** X6. The only exception [get_product_data] of [get_json.py] raises
    is [APIError], with one of its two messages, provided the decoding
    error of the requests library is a [ValueError]. *)
Theorem json_fetch_raises_only_APIError (e : env) (query : string)
  (locality : pyval) (country : string) (w : world) :
  is_ValueError (json_decode_error e) = true ->
  match fst (GetJson.get_product_data e query locality country w) with
  | Ok _ => True
  | Raise (APIError msg) =>
      msg = GetJson.fetch_failed \/ msg = GetJson.invalid_json
  | Raise _ => False
  end.
Proof.
  intros Hv.
  unfold GetJson.get_product_data, requests_get, raise_for_status, response_json.
  unfold bindM, catch, sleep. simpl.
  destruct (http e query locality country) as [msg|[status [v|]]]; simpl.
  - now left.
  - destruct ((400 <=? status)%Z && (status <? 600)%Z); simpl; [now left|exact I].
  - destruct ((400 <=? status)%Z && (status <? 600)%Z); simpl; [now left|].
    unfold raise. rewrite Hv. now right.
Qed.

Lemma json_fetch_raises_only_APIError_witness :
  match fst (GetJson.get_product_data env_not_found "milk" (VStr "88010560")
               "BR" world0) with
  | Ok _ => True
  | Raise (APIError msg) =>
      msg = GetJson.fetch_failed \/ msg = GetJson.invalid_json
  | Raise _ => False
  end.
Proof.
  apply json_fetch_raises_only_APIError. reflexivity.
Defined.

(** ** More on the exporter *)

Lemma export_data_unsupported e df dir_path base_name format w :
  ~ In format GetPrices.supported_formats ->
  GetPrices.export_data e df dir_path base_name format w
  = (Raise (GetPrices.unsupported_format format), w).
Proof.
  intros Hn. unfold GetPrices.export_data.
  destruct (string_mem format GetPrices.supported_formats) eqn:E; [|reflexivity].
  apply string_mem_In in E. contradiction.
Qed.

Lemma export_data_run e df dir_path base_name format w :
  In format GetPrices.supported_formats ->
  makedirs_fails e dir_path = None ->
  GetPrices.export_data e df dir_path base_name format w
  = let path := export_path e dir_path base_name format in
    match write_fails e path with
    | None =>
        (Ok tt, with_file path (content_of format df) (with_dir dir_path w))
    | Some err =>
        (Raise err,
         with_log ERROR
           ("An error occurred while exporting data to " ++ path)%string
           (Some err) (with_dir dir_path w))
    end.
Proof.
  intros Hin Hm.
  assert (Hw : (if String.eqb format "csv"
                then write_file e (export_path e dir_path base_name format)
                       (CsvFile df)
                else if String.eqb format "parquet"
                then write_file e (export_path e dir_path base_name format)
                       (ParquetFile df)
                else if String.eqb format "json"
                then write_file e (export_path e dir_path base_name format)
                       (JsonLinesFile df)
                else ret tt)
               = write_file e (export_path e dir_path base_name format)
                   (content_of format df)).
  { simpl in Hin. destruct Hin as [<-|[<-|[<-|[]]]]; reflexivity. }
  unfold GetPrices.export_data.
  rewrite (proj2 (string_mem_In _ _) Hin).
  cbn [negb]. cbv zeta.
  fold (export_path e dir_path base_name format).
  rewrite Hw.
  unfold bindM at 1. unfold os_makedirs. rewrite Hm.
  fold (with_dir dir_path w).
  unfold catch, bindM, write_file, logging, raise.
  destruct (write_fails e (export_path e dir_path base_name format));
    reflexivity.
Qed.

(** X7. When a write fails, [export_data] has created the directory,
    logs one error record that names the path and carries the
    exception, and raises that same exception again. *)
Theorem export_data_reraises (e : env) (df : list pyval)
  (dir_path base_name format : string) (w : world) (err : exn) :
  In format GetPrices.supported_formats ->
  makedirs_fails e dir_path = None ->
  write_fails e (export_path e dir_path base_name format) = Some err ->
  let out := GetPrices.export_data e df dir_path base_name format w in
  fst out = Raise err
  /\ In dir_path (dirs (snd out))
  /\ log (snd out)
     = log w
       ++ [{| log_level := ERROR;
              log_text := ("An error occurred while exporting data to "
                           ++ export_path e dir_path base_name format)%string;
              log_exn := Some err |}].
Proof.
  intros Hin Hm Hw. cbv zeta.
  rewrite (export_data_run _ _ _ _ _ _ Hin Hm). cbv zeta. rewrite Hw.
  repeat split. simpl.
  destruct (string_mem dir_path (dirs w)) eqn:E.
  - now apply string_mem_In.
  - apply in_or_app. right. now left.
Qed.

Lemma export_data_reraises_witness :
  fst (GetPrices.export_data env_read_only [] "./data/" "product_data" "json"
         world0)
  = Raise (OSError "Read-only file system").
Proof.
  refine (proj1 (export_data_reraises env_read_only [] "./data/" "product_data"
                   "json" world0 (OSError "Read-only file system") _ _ _)).
  - simpl. auto.
  - reflexivity.
  - reflexivity.
Defined.

(** X8. A successful [export_data] ensures the directory and writes one
    file, at [dir_path/base_name_timestamp.format], that holds all the
    rows of the frame in the format asked for; its success message is
    logged at the level INFO, below the default threshold, so no log
    record is emitted. *)
Theorem export_data_writes_frame (e : env) (df : list pyval)
  (dir_path base_name format : string) (w : world) :
  In format GetPrices.supported_formats ->
  makedirs_fails e dir_path = None ->
  write_fails e (export_path e dir_path base_name format) = None ->
  GetPrices.export_data e df dir_path base_name format w
  = (Ok tt,
     with_file (export_path e dir_path base_name format)
       (content_of format df) (with_dir dir_path w)).
Proof.
  intros Hin Hm Hw.
  rewrite (export_data_run _ _ _ _ _ _ Hin Hm). cbv zeta. now rewrite Hw.
Qed.

Lemma export_data_writes_frame_witness :
  files (snd (GetPrices.export_data env_scenario [scenario_product] "./data/"
                "product_data" "parquet" world0))
  = [("./data/product_data_20261104-120000.parquet",
      ParquetFile [scenario_product])].
Proof.
  rewrite (export_data_writes_frame env_scenario [scenario_product] "./data/"
             "product_data" "parquet" world0).
  - reflexivity.
  - simpl. auto.
  - reflexivity.
  - reflexivity.
Defined.

(** ** The pipeline of [get_prices.py] *)

Lemma fetch_and_export_run e query cep country dir_path base_name format w
  status raw :
  http e query (VInt cep) country
  = Responded {| status_code := status; body := Some raw |} ->
  status_ok status = true ->
  GetPrices.fetch_and_export_product_data e query cep country dir_path
    base_name format w
  = if negb (truthy raw) then logging WARNING "No data returned." None w
    else
      match py_get raw "results" (VList []) with
      | Raise err => (Raise err, w)
      | Ok product_results =>
          if negb (is_list product_results) then
            logging WARNING
              "'results' is not present or not a list in the returned data."
              None w
          else
            match GetPrices.create_dataframe (today e) product_results with
            | Raise err => (Raise err, w)
            | Ok df => GetPrices.export_data e df dir_path base_name format w
            end
      end.
Proof.
  intros Hh Hs. unfold GetPrices.fetch_and_export_product_data.
  unfold bindM at 1. rewrite (prices_fetch_success _ _ _ _ _ status raw Hh Hs).
  destruct (truthy raw); cbn [negb]; [|reflexivity].
  unfold bindM at 1, lift at 1.
  destruct (py_get raw "results" (VList [])) as [results|err]; [|reflexivity].
  destruct (is_list results); cbn [negb]; [|reflexivity].
  unfold bindM, lift.
  now destruct (GetPrices.create_dataframe (today e) results).
Qed.

(** X9. The whole pipeline of [get_prices.py], when nothing fails: the
    file written holds exactly the rows [create_dataframe] builds from
    the [results] of the response, in the format asked for. *)
Theorem fetch_and_export_writes_rows (e : env) (query : string) (cep : Z)
  (country dir_path base_name format : string) (w : world)
  (status : Z) (raw : pyval) (stores rows : list pyval) :
  http e query (VInt cep) country
  = Responded {| status_code := status; body := Some raw |} ->
  status_ok status = true ->
  field "results" raw = Some (VList stores) ->
  GetPrices.create_dataframe (today e) (VList stores) = Ok rows ->
  In format GetPrices.supported_formats ->
  makedirs_fails e dir_path = None ->
  write_fails e (export_path e dir_path base_name format) = None ->
  let out := GetPrices.fetch_and_export_product_data e query cep country
               dir_path base_name format w in
  fst out = Ok tt
  /\ files (snd out)
     = filter (fun f => negb (String.eqb (fst f)
                                (export_path e dir_path base_name format)))
              (files w)
       ++ [(export_path e dir_path base_name format, content_of format rows)].
Proof.
  intros Hh Hs Hr Hc Hin Hm Hw. cbv zeta.
  rewrite (fetch_and_export_run _ _ _ _ _ _ _ _ status raw Hh Hs).
  destruct raw; try discriminate Hr. simpl in Hr.
  assert (Ht : truthy (VDict entries) = true)
    by (destruct entries; [discriminate Hr|reflexivity]).
  rewrite Ht. cbn [negb]. unfold py_get. rewrite Hr. cbn [is_list negb].
  rewrite Hc. rewrite (export_data_run _ _ _ _ _ _ Hin Hm). cbv zeta.
  rewrite Hw. split; reflexivity.
Qed.

Lemma fetch_and_export_writes_rows_witness :
  exists rows,
    GetPrices.create_dataframe "2026-11-04" (VList scenario_results) = Ok rows
    /\ files (snd (GetPrices.fetch_and_export_product_data env_scenario "milk"
                     88010560 "BR" "./data/" "product_data" "csv" world0))
       = [("./data/product_data_20261104-120000.csv", CsvFile rows)].
Proof.
  eexists. split; [reflexivity|].
  refine (proj2 (fetch_and_export_writes_rows env_scenario "milk" 88010560 "BR"
                   "./data/" "product_data" "csv" world0 200 scenario_response
                   scenario_results _ eq_refl eq_refl eq_refl eq_refl _ eq_refl
                   eq_refl)).
  simpl. auto.
Defined.

(** X10. A response that Python reads as false -- null, an empty object
    or list, zero, an empty string -- stops the pipeline of
    [get_prices.py]: one warning is logged, nothing is raised and the
    rest of the world is as it was. *)
Theorem fetch_and_export_falsy_response (e : env) (query : string) (cep : Z)
  (country dir_path base_name format : string) (w : world)
  (status : Z) (raw : pyval) :
  http e query (VInt cep) country
  = Responded {| status_code := status; body := Some raw |} ->
  status_ok status = true ->
  truthy raw = false ->
  GetPrices.fetch_and_export_product_data e query cep country dir_path
    base_name format w
  = (Ok tt, with_log WARNING "No data returned." None w).
Proof.
  intros Hh Hs Ht.
  rewrite (fetch_and_export_run _ _ _ _ _ _ _ _ status raw Hh Hs).
  now rewrite Ht.
Qed.

Lemma fetch_and_export_falsy_response_witness :
  GetPrices.fetch_and_export_product_data (env_answering (VDict [])) "milk"
    88010560 "BR" "./data/" "product_data" "csv" world0
  = (Ok tt, with_log WARNING "No data returned." None world0).
Proof.
  apply (fetch_and_export_falsy_response (env_answering (VDict [])) "milk"
           88010560 "BR" "./data/" "product_data" "csv" world0 200 (VDict []));
    reflexivity.
Defined.

(** X11. A response that is not a JSON object and that Python reads as
    true -- a non-empty list or string, a number, [true] -- makes the
    pipeline of [get_prices.py] raise [AttributeError] at the lookup of
    [results], with the world left as it was. *)
Theorem fetch_and_export_non_object_response (e : env) (query : string)
  (cep : Z) (country dir_path base_name format : string) (w : world)
  (status : Z) (raw : pyval) :
  http e query (VInt cep) country
  = Responded {| status_code := status; body := Some raw |} ->
  status_ok status = true ->
  truthy raw = true ->
  is_dict raw = false ->
  GetPrices.fetch_and_export_product_data e query cep country dir_path
    base_name format w
  = (Raise (no_attribute_get raw), w).
Proof.
  intros Hh Hs Ht Hd.
  rewrite (fetch_and_export_run _ _ _ _ _ _ _ _ status raw Hh Hs).
  rewrite Ht. cbn [negb].
  destruct raw; try discriminate Hd; reflexivity.
Qed.

Lemma fetch_and_export_non_object_response_witness :
  GetPrices.fetch_and_export_product_data (env_answering (VList [VInt 1]))
    "milk" 88010560 "BR" "./data/" "product_data" "csv" world0
  = (Raise (AttributeError "'list' object has no attribute 'get'"), world0).
Proof.
  apply (fetch_and_export_non_object_response (env_answering (VList [VInt 1]))
           "milk" 88010560 "BR" "./data/" "product_data" "csv" world0 200
           (VList [VInt 1])); reflexivity.
Defined.

(** X12. In the pipeline of [get_prices.py] the format is checked last:
    with an unsupported format the response is still fetched and
    flattened, then the unsupported-format error is raised and the world
    is as it was; and when the flattening raises, its exception comes out
    before any directory or file is made, whatever the format. *)
Theorem fetch_and_export_fails_before_writing (e : env) (query : string)
  (cep : Z) (country dir_path base_name format : string) (w : world)
  (status : Z) (raw : pyval) (stores : list pyval) :
  http e query (VInt cep) country
  = Responded {| status_code := status; body := Some raw |} ->
  status_ok status = true ->
  field "results" raw = Some (VList stores) ->
  let out := GetPrices.fetch_and_export_product_data e query cep country
               dir_path base_name format w in
  (forall err,
     GetPrices.create_dataframe (today e) (VList stores) = Raise err ->
     out = (Raise err, w))
  /\ (forall rows,
        GetPrices.create_dataframe (today e) (VList stores) = Ok rows ->
        ~ In format GetPrices.supported_formats ->
        out = (Raise (GetPrices.unsupported_format format), w)).
Proof.
  intros Hh Hs Hr. cbv zeta.
  rewrite (fetch_and_export_run _ _ _ _ _ _ _ _ status raw Hh Hs).
  destruct raw; try discriminate Hr. simpl in Hr.
  assert (Ht : truthy (VDict entries) = true)
    by (destruct entries; [discriminate Hr|reflexivity]).
  rewrite Ht. cbn [negb]. unfold py_get. rewrite Hr. cbn [is_list negb].
  split.
  - intros err ->. reflexivity.
  - intros rows -> Hn. now apply export_data_unsupported.
Qed.

Lemma fetch_and_export_fails_before_writing_witness :
  GetPrices.fetch_and_export_product_data env_scenario "milk" 88010560 "BR"
    "./data/" "product_data" "xml" world0
  = (Raise (GetPrices.unsupported_format "xml"), world0).
Proof.
  refine (proj2 (fetch_and_export_fails_before_writing env_scenario "milk"
                   88010560 "BR" "./data/" "product_data" "xml" world0 200
                   scenario_response scenario_results eq_refl eq_refl eq_refl)
                _ eq_refl _).
  simpl. intuition discriminate.
Defined.

(** ** The pipeline of [get_json.py] *)

Lemma get_and_create_run e term code country base_dir w status raw :
  http e term (VStr code) country
  = Responded {| status_code := status; body := Some raw |} ->
  status_ok status = true ->
  GetJson.get_and_create e term code country base_dir w
  = let w1 := with_sleep 2 (with_line "Fetching product data..." w) in
    match py_get raw "results" (VList []) with
    | Raise err => (Raise err, w1)
    | Ok json_data =>
        match GetJson.create_data (today e) json_data with
        | Raise err => (Raise err, w1)
        | Ok data =>
            match makedirs_fails e (path_join base_dir "data") with
            | Some err => (Raise err, w1)
            | None =>
                let path := save_path e base_dir term code in
                let w2 := with_line ("Saving data as JSON: " ++ path)%string
                            (with_dir (path_join base_dir "data") w1) in
                match write_fails e path with
                | Some err => (Raise err, w2)
                | None =>
                    (Ok (VList data),
                     with_line "Data saved successfully."
                       (with_file path (JsonFile (VList data)) w2))
                end
            end
        end
    end.
Proof.
  intros Hh Hs. unfold GetJson.get_and_create.
  unfold bindM at 1.
  change (print "Fetching product data..." w)
    with (Ok tt, with_line "Fetching product data..." w).
  unfold bindM at 1.
  rewrite (json_fetch_success _ _ _ _ _ status raw Hh Hs).
  cbv zeta. unfold bindM at 1, lift at 1.
  destruct (py_get raw "results" (VList [])) as [json_data|err]; [|reflexivity].
  unfold bindM at 1, lift at 1.
  destruct (GetJson.create_data (today e) json_data) as [data|err];
    [|reflexivity].
  unfold bindM at 1, os_makedirs at 1.
  destruct (makedirs_fails e (path_join base_dir "data")); [reflexivity|].
  fold (save_path e base_dir term code).
  unfold bindM, print, GetJson.save_as_json, write_file, ret.
  destruct (write_fails e (save_path e base_dir term code)); reflexivity.
Qed.

(** X13. [get_and_create], when nothing fails: it returns the rows
    [create_data] builds from the [results] of the response, and the
    file it saves, at [base_dir/data/term_code_timestamp.json], holds
    those same rows; the directory [base_dir/data] exists afterwards. *)
Theorem get_and_create_saves_rows (e : env) (term code country base_dir : string)
  (w : world) (status : Z) (raw results : pyval) (rows : list pyval) :
  http e term (VStr code) country
  = Responded {| status_code := status; body := Some raw |} ->
  status_ok status = true ->
  py_get raw "results" (VList []) = Ok results ->
  GetJson.create_data (today e) results = Ok rows ->
  makedirs_fails e (path_join base_dir "data") = None ->
  write_fails e (save_path e base_dir term code) = None ->
  let out := GetJson.get_and_create e term code country base_dir w in
  fst out = Ok (VList rows)
  /\ In (path_join base_dir "data") (dirs (snd out))
  /\ files (snd out)
     = filter (fun f => negb (String.eqb (fst f)
                                (save_path e base_dir term code)))
              (files w)
       ++ [(save_path e base_dir term code, JsonFile (VList rows))].
Proof.
  intros Hh Hs Hr Hc Hm Hw. cbv zeta.
  rewrite (get_and_create_run _ _ _ _ _ _ status raw Hh Hs).
  cbv zeta. rewrite Hr, Hc, Hm, Hw. repeat split. simpl.
  destruct (string_mem (path_join base_dir "data") (dirs w)) eqn:E.
  - now apply string_mem_In.
  - apply in_or_app. right. now left.
Qed.

Lemma get_and_create_saves_rows_witness :
  exists rows,
    fst (GetJson.get_and_create env_scenario "milk" "88010560" "BR" "/srv"
           world0) = Ok (VList rows)
    /\ files (snd (GetJson.get_and_create env_scenario "milk" "88010560" "BR"
                     "/srv" world0))
       = [("/srv/data/milk_88010560_20261104-120000.json",
           JsonFile (VList rows))].
Proof.
  eexists.
  destruct (get_and_create_saves_rows env_scenario "milk" "88010560" "BR" "/srv"
              world0 200 scenario_response (VList scenario_results) _
              eq_refl eq_refl eq_refl eq_refl eq_refl eq_refl)
    as (H1 & _ & H3).
  split; [exact H1|exact H3].
Defined.

(** X14. [get_and_create] makes the directory and the file only after
    the flattening: when the response is not a JSON object, or when
    [create_data] raises, the exception comes out and the world has only
    the line printed and the two seconds slept. *)
Theorem get_and_create_fails_before_writing (e : env)
  (term code country base_dir : string) (w : world) (status : Z) (raw : pyval) :
  http e term (VStr code) country
  = Responded {| status_code := status; body := Some raw |} ->
  status_ok status = true ->
  let out := GetJson.get_and_create e term code country base_dir w in
  let w1 := with_sleep 2 (with_line "Fetching product data..." w) in
  (is_dict raw = false -> out = (Raise (no_attribute_get raw), w1))
  /\ (forall results err,
        py_get raw "results" (VList []) = Ok results ->
        GetJson.create_data (today e) results = Raise err ->
        out = (Raise err, w1)).
Proof.
  intros Hh Hs. cbv zeta.
  rewrite (get_and_create_run _ _ _ _ _ _ status raw Hh Hs). cbv zeta.
  split.
  - intros Hd. destruct raw; try discriminate Hd; reflexivity.
  - intros results err -> ->. reflexivity.
Qed.

Lemma get_and_create_fails_before_writing_witness :
  GetJson.get_and_create (env_answering VNone) "milk" "88010560" "BR" "/srv"
    world0
  = (Raise (AttributeError "'NoneType' object has no attribute 'get'"),
     with_sleep 2 (with_line "Fetching product data..." world0)).
Proof.
  apply (proj1 (get_and_create_fails_before_writing (env_answering VNone) "milk"
                  "88010560" "BR" "/srv" world0 200 VNone eq_refl eq_refl)).
  reflexivity.
Defined.



(** ** [dump_to_file] *)

(** X16. [dump_to_file] never raises: a failed write is caught and
    reported in one line on the standard output; a successful one stores
    the data at [filename] and prints one line. Neither touches the
    directories or the log. *)
Theorem dump_to_file_never_raises (e : env) (str_of : exn -> string)
  (data : pyval) (filename : string) (w : world) :
  let out := GetPrices.dump_to_file e str_of data filename w in
  fst out = Ok tt
  /\ dirs (snd out) = dirs w
  /\ log (snd out) = log w
  /\ match write_fails e filename with
     | None =>
         snd out
         = with_line ("Data successfully dumped to " ++ filename)%string
             (with_file filename (JsonFile data) w)
     | Some err =>
         stdout (snd out)
         = stdout w
           ++ [("An error occurred while dumping data to the file: "
                ++ str_of err)%string]
     end.
Proof.
  unfold GetPrices.dump_to_file, catch, bindM, write_file, print.
  destruct (write_fails e filename); cbv zeta; simpl; repeat split.
Qed.

(** ** The batch of [get_json.py] *)

Lemma get_and_create_slept e term code country base_dir w :
  slept (snd (GetJson.get_and_create e term code country base_dir w))
  = (slept w + 2)%Z.
Proof.
  unfold GetJson.get_and_create. unfold bindM at 1.
  change (print "Fetching product data..." w)
    with (Ok tt, with_line "Fetching product data..." w).
  unfold bindM at 1.
  assert (Hs := json_fetch_cases e term (VStr code) country
                  (with_line "Fetching product data..." w)).
  cbv zeta in Hs.
  destruct (GetJson.get_product_data e term (VStr code) country
              (with_line "Fetching product data..." w)) as [[raw|err] w1].
  - assert (Hw1 : slept w1 = (slept w + 2)%Z)
      by (destruct Hs as [Hs|[x Hs]]; simpl in Hs; now subst).
    clear Hs. unfold bindM at 1, lift at 1.
    destruct (py_get raw "results" (VList [])); [|exact Hw1].
    unfold bindM at 1, lift at 1.
    destruct (GetJson.create_data (today e) a); [|exact Hw1].
    cbv zeta. unfold bindM at 1, os_makedirs at 1.
    destruct (makedirs_fails e (path_join base_dir "data")); [exact Hw1|].
    unfold bindM, print, GetJson.save_as_json, write_file, ret.
    match goal with
    | |- context [write_fails e ?p] => destruct (write_fails e p)
    end; exact Hw1.
  - destruct Hs as [Hs|[x Hs]]; simpl in Hs; now subst.
Qed.

Lemma for_each_app {A : Type} (body : A -> M unit) (l1 l2 : list A) (w : world) :
  for_each body (l1 ++ l2) w
  = match for_each body l1 w with
    | (Ok _, w') => for_each body l2 w'
    | (Raise err, w') => (Raise err, w')
    end.
Proof.
  revert w; induction l1 as [|x l1 IH]; intros w; [reflexivity|].
  simpl. unfold bindM. destruct (body x w) as [[[]|err] w']; [apply IH|reflexivity].
Qed.

Lemma for_each_slept {A : Type} (body : A -> M unit) (cost : A -> Z)
  (l : list A) :
  (forall x w, fst (body x w) = Ok tt ->
               slept (snd (body x w)) = (slept w + cost x)%Z) ->
  forall w, fst (for_each body l w) = Ok tt ->
            slept (snd (for_each body l w))
            = (slept w + fold_right Z.add 0%Z (map cost l))%Z.
Proof.
  intros Hb. induction l as [|x l IH]; intros w H; simpl in *; [lia|].
  unfold bindM in *. specialize (Hb x w).
  destruct (body x w) as [[[]|err] w']; simpl in *; [|discriminate H].
  rewrite (IH w' H), (Hb eq_refl). lia.
Qed.

Lemma process_slept base_dir code country item w :
  slept (snd (process base_dir code country item w)) = (slept w + 2)%Z.
Proof.
  unfold process, bindM.
  assert (H := get_and_create_slept (fst item) (snd item) code country
                 base_dir w).
  destruct (GetJson.get_and_create (fst item) (snd item) code country base_dir w)
    as [[v|err] w']; exact H.
Qed.

Lemma categoria_slept base_dir code country categoria w :
  fst (for_each (process base_dir code country) categoria w) = Ok tt ->
  slept (snd (for_each (process base_dir code country) categoria w))
  = (slept w + 2 * Z.of_nat (List.length categoria))%Z.
Proof.
  intros H.
  rewrite (for_each_slept _ (fun _ => 2%Z) categoria
             (fun x w' _ => process_slept base_dir code country x w') w H).
  f_equal. clear H. induction categoria as [|x l IH]; [reflexivity|].
  cbn [map fold_right List.length]. rewrite IH, Nat2Z.inj_succ. lia.
Qed.

Lemma main_unfold supermercado base_dir code country :
  GetJson.main supermercado base_dir code country
  = for_each (for_each (process base_dir code country)) supermercado.
Proof. reflexivity. Qed.

Lemma main_slept supermercado base_dir code country w :
  fst (GetJson.main supermercado base_dir code country w) = Ok tt ->
  slept (snd (GetJson.main supermercado base_dir code country w))
  = (slept w + 2 * Z.of_nat (List.length (List.concat supermercado)))%Z.
Proof.
  rewrite main_unfold. intros H.
  rewrite (for_each_slept _ (fun categoria => 2 * Z.of_nat (List.length categoria))%Z
             supermercado
             (fun x w' => categoria_slept base_dir code country x w') w H).
  f_equal. clear H. induction supermercado as [|x l IH]; [reflexivity|].
  cbn [map fold_right List.concat]. rewrite length_app, IH, Nat2Z.inj_add. lia.
Qed.

(** X17. A batch that completes has waited two seconds per term: the
    seconds slept grow by twice the number of terms of all the lists. *)
Theorem main_waits_per_term (supermercado : list (list (env * string)))
  (base_dir code country : string) (w : world) :
  fst (GetJson.main supermercado base_dir code country w) = Ok tt ->
  slept (snd (GetJson.main supermercado base_dir code country w))
  = (slept w + 2 * Z.of_nat (List.length (List.concat supermercado)))%Z.
Proof. apply main_slept. Qed.

Lemma main_waits_per_term_witness :
  slept (snd (GetJson.main [[(env_scenario, "milk"); (env_scenario, "rice")];
                            [(env_scenario, "soap")]] "/srv" "88010560" "BR"
                world0)) = 6%Z.
Proof.
  rewrite main_waits_per_term; reflexivity.
Defined.

Lemma process_fetch_failure base_dir code country e item w :
  fetch_fails (http e item (VStr code) country) = true ->
  exists w',
    process base_dir code country (e, item) w
    = (Raise (APIError GetJson.fetch_failed), w')
    /\ files w' = files w /\ slept w' = (slept w + 2)%Z.
Proof.
  intros Hf.
  assert (Hs := get_and_create_slept e item code country base_dir w).
  destruct (get_and_create_fetch_failure e item code country base_dir w Hf)
    as (w' & E & _ & Hfiles).
  exists w'. unfold process, bindM. cbn [fst snd]. rewrite E in *.
  auto.
Qed.

(** X18. The batch stops at the first term whose fetch fails: the
    [APIError] comes out of the script, the terms after it are never
    requested (the failing term is the last one waited for), and the
    files are those the terms before it left. *)
Theorem main_stops_at_first_failure
  (done later : list (list (env * string))) (before after : list (env * string))
  (e : env) (item base_dir code country : string) (w : world) :
  fst (GetJson.main (done ++ [before]) base_dir code country w) = Ok tt ->
  fetch_fails (http e item (VStr code) country) = true ->
  let out := GetJson.main (done ++ (before ++ (e, item) :: after) :: later)
               base_dir code country w in
  fst out = Raise (APIError GetJson.fetch_failed)
  /\ slept (snd out)
     = (slept w + 2 * (Z.of_nat (List.length (List.concat (done ++ [before]))) + 1))%Z
  /\ files (snd out)
     = files (snd (GetJson.main (done ++ [before]) base_dir code country w)).
Proof.
  intros Hok Hf. cbv zeta.
  assert (Hs := main_slept (done ++ [before]) base_dir code country w Hok).
  revert Hok Hs. rewrite !main_unfold.
  destruct (for_each (for_each (process base_dir code country)) done w)
    as [[[]|err1] w1] eqn:Ed.
  - destruct (for_each (process base_dir code country) before w1)
      as [[[]|err2] w2] eqn:Eb.
    + destruct (process_fetch_failure base_dir code country e item w2 Hf)
        as (w3 & E & Hfiles & Hslept).
      assert (E1 : for_each (for_each (process base_dir code country))
                     (done ++ [before]) w = (Ok tt, w2)).
      { rewrite for_each_app, Ed. cbn [for_each]. unfold bindM.
        now rewrite Eb. }
      assert (E2 : for_each (for_each (process base_dir code country))
                     (done ++ (before ++ (e, item) :: after) :: later) w
                   = (Raise (APIError GetJson.fetch_failed), w3)).
      { rewrite for_each_app, Ed. cbn [for_each]. unfold bindM at 1.
        rewrite for_each_app, Eb. cbn [for_each]. unfold bindM at 1.
        now rewrite E. }
      rewrite E1, E2. cbn [fst snd]. intros _ Hs.
      repeat split; [lia|assumption].
    + rewrite for_each_app, Ed. cbn [for_each]. unfold bindM.
      rewrite Eb. discriminate.
  - rewrite for_each_app, Ed. discriminate.
Qed.

Lemma main_stops_at_first_failure_witness :
  fst (GetJson.main [[(env_scenario, "milk"); (env_down, "rice")];
                     [(env_scenario, "soap")]] "/srv" "88010560" "BR" world0)
  = Raise (APIError GetJson.fetch_failed).
Proof.
  refine (proj1 (main_stops_at_first_failure [] [[(env_scenario, "soap")]]
                   [(env_scenario, "milk")] [] env_down "rice" "/srv"
                   "88010560" "BR" world0 _ _)); reflexivity.
Defined.

(** ** More on the flatteners *)

Lemma concat_mapM_app_eq {A B : Type} (f : A -> result (list B))
  (l1 l2 : list A) :
  concat_mapM f (l1 ++ l2) =
  zs1 <- concat_mapM f l1 ;; zs2 <- concat_mapM f l2 ;; Ok (zs1 ++ zs2).
Proof.
  induction l1 as [|x l1 IH]; simpl.
  - now destruct (concat_mapM f l2).
  - destruct (f x) as [ys|e]; simpl; [|reflexivity].
    rewrite IH. destruct (concat_mapM f l1) as [zs1|e]; simpl; [|reflexivity].
    destruct (concat_mapM f l2) as [zs2|e]; simpl; [|reflexivity].
    now rewrite app_assoc.
Qed.

(** X19. Flattening two lists of store results put end to end is
    flattening each and putting the rows end to end; an exception of the
    first list comes before one of the second. *)
Theorem flatten_concatenation (date : string) (stores1 stores2 : list pyval) :
  GetJson.create_data date (VList (stores1 ++ stores2))
  = (rows1 <- GetJson.create_data date (VList stores1) ;;
     rows2 <- GetJson.create_data date (VList stores2) ;;
     Ok (rows1 ++ rows2))
  /\ GetPrices.create_dataframe date (VList (stores1 ++ stores2))
     = (rows1 <- GetPrices.create_dataframe date (VList stores1) ;;
        rows2 <- GetPrices.create_dataframe date (VList stores2) ;;
        Ok (rows1 ++ rows2)).
Proof.
  unfold GetJson.create_data, GetPrices.create_dataframe; simpl.
  split; apply concat_mapM_app_eq.
Qed.

Lemma mapM_Forall {A B : Type} (f : A -> result B) (P : B -> Prop)
  (l : list A) (ys : list B) :
  (forall x y, f x = Ok y -> P y) -> mapM f l = Ok ys -> Forall P ys.
Proof.
  intros Hf. revert ys; induction l as [|x l IH]; simpl; intros ys H.
  - inversion H. constructor.
  - destruct (f x) as [y|e] eqn:Ex; simpl in H; [|discriminate].
    destruct (mapM f l) as [ys'|e]; simpl in H; [|discriminate].
    inversion H; subst. constructor; eauto.
Qed.

Lemma concat_mapM_Forall {A B : Type} (f : A -> result (list B))
  (P : B -> Prop) (l : list A) (zs : list B) :
  (forall x ys, f x = Ok ys -> Forall P ys) ->
  concat_mapM f l = Ok zs -> Forall P zs.
Proof.
  intros Hf. revert zs; induction l as [|x l IH]; simpl; intros zs H.
  - inversion H. constructor.
  - destruct (f x) as [ys|e] eqn:Ex; simpl in H; [|discriminate].
    destruct (concat_mapM f l) as [zs'|e]; simpl in H; [|discriminate].
    inversion H; subst. apply Forall_app. split; eauto.
Qed.

(** One step through a chain of [bind]s known to return. *)
Ltac bind_step H :=
  match type of H with
  | bind ?m _ = Ok _ =>
      let E := fresh "E" in
      destruct m eqn:E; cbn [bind] in H; [|discriminate H]
  end.

Lemma json_create_row_columns date data aisle product row :
  GetJson.create_row date data aisle product = Ok row ->
  keys_of row = json_columns /\ field "date" row = Some (VStr date).
Proof.
  unfold GetJson.create_row. intros H. repeat bind_step H.
  inversion H; subst. split; reflexivity.
Qed.

Lemma prices_create_row_columns date data aisle product row :
  GetPrices.create_row date data aisle product = Ok row ->
  keys_of row = prices_columns /\ field "Date" row = Some (VStr date).
Proof.
  unfold GetPrices.create_row. intros H. repeat bind_step H.
  inversion H; subst. split; reflexivity.
Qed.

(** X20. Every row a flattener returns is a dictionary with the same
    keys in the same order -- nine for [get_json.py], twelve for
    [get_prices.py] -- and carries the date stamp it was given, whatever
    the fields the product, the aisle and the store have. *)
Theorem rows_have_fixed_columns (date : string) (results : pyval) :
  (forall rows,
     GetJson.create_data date results = Ok rows ->
     Forall (fun row => keys_of row = json_columns
                        /\ field "date" row = Some (VStr date)) rows)
  /\ (forall rows,
        GetPrices.create_dataframe date results = Ok rows ->
        Forall (fun row => keys_of row = prices_columns
                           /\ field "Date" row = Some (VStr date)) rows).
Proof.
  split; intros rows H.
  - unfold GetJson.create_data in H. bind_step H.
    eapply concat_mapM_Forall; [|exact H].
    intros data ys Hs. unfold GetJson.rows_of_store in Hs.
    repeat bind_step Hs.
    eapply concat_mapM_Forall; [|exact Hs].
    intros aisle zs Ha. unfold GetJson.rows_of_aisle in Ha.
    repeat bind_step Ha.
    eapply mapM_Forall; [|exact Ha].
    intros product row. apply json_create_row_columns.
  - unfold GetPrices.create_dataframe in H. bind_step H.
    eapply concat_mapM_Forall; [|exact H].
    intros data ys Hs. unfold GetPrices.rows_of_store in Hs.
    repeat bind_step Hs.
    eapply concat_mapM_Forall; [|exact Hs].
    intros aisle zs Ha. unfold GetPrices.rows_of_aisle in Ha.
    repeat bind_step Ha.
    eapply mapM_Forall; [|exact Ha].
    intros product row. apply prices_create_row_columns.
Qed.

Lemma rows_have_fixed_columns_witness :
  exists rows,
    GetJson.create_data "04-11-2026" (VList scenario_results) = Ok rows
    /\ Forall (fun row => keys_of row = json_columns
                          /\ field "date" row = Some (VStr "04-11-2026")) rows.
Proof.
  eexists. split; [reflexivity|].
  apply (proj1 (rows_have_fixed_columns "04-11-2026" (VList scenario_results))).
  reflexivity.
Defined.

(** ** The fields of a row *)

Lemma py_get_absent v key default a :
  field key v = None -> py_get v key default = Ok a -> a = default.
Proof.
  destruct v; simpl; intros Hf Hg; try discriminate Hg.
  rewrite Hf in Hg. now inversion Hg.
Qed.

Lemma py_get_present v key default a x :
  field key v = Some x -> py_get v key default = Ok a -> a = x.
Proof.
  destruct v; simpl; intros Hf Hg; try discriminate Hg.
  rewrite Hf in Hg. now inversion Hg.
Qed.

Lemma walk_step v key keys x :
  walk v (key :: keys) = Reached x ->
  exists a, field key v = Some a /\ walk a keys = Reached x.
Proof.
  destruct v; simpl; try discriminate.
  destruct (dict_lookup key entries) as [a|]; [eauto|discriminate].
Qed.

Lemma get_nested_reach v keys a :
  GetJson.get_nested v keys = Ok a -> a = reach v keys.
Proof.
  rewrite get_nested_walk. unfold reach.
  destruct (walk v keys); now inversion 1.
Qed.

(** X21. In a row of [get_prices.py] the field of a key that is absent
    is the empty string: the price of a product without [pricing], the
    package, name and id of a product without them, the aisle name, the
    three store fields of a result without [store] and the search term
    of a result without [search_result]. *)
Theorem prices_create_row_defaults (date : string)
  (data aisle product row : pyval) :
  GetPrices.create_row date data aisle product = Ok row ->
  (field "pricing" product = None ->
   field "Product Price" row = Some (VStr ""))
  /\ (field "package" product = None -> field "Package" row = Some (VStr ""))
  /\ (field "name" product = None -> field "Product Name" row = Some (VStr ""))
  /\ (field "id" product = None -> field "Product ID" row = Some (VStr ""))
  /\ (field "aisle_name" aisle = None ->
      field "Aisle Name" row = Some (VStr ""))
  /\ (field "store" data = None ->
      field "Store Name" row = Some (VStr "")
      /\ field "Store ID" row = Some (VStr "")
      /\ field "Store City" row = Some (VStr ""))
  /\ (field "search_result" data = None ->
      field "Search Term" row = Some (VStr "")).
Proof.
  unfold GetPrices.create_row. intros H. repeat bind_step H.
  inversion H; subst; clear H. simpl.
  repeat match goal with |- _ /\ _ => split end; intros Hn.
  - apply (py_get_absent _ _ _ _ Hn) in E. subst.
    simpl in E0. inversion E0; subst.
    simpl in E1. now inversion E1.
  - now apply (py_get_absent _ _ _ _ Hn) in E2; subst.
  - now apply (py_get_absent _ _ _ _ Hn) in E9; subst.
  - now apply (py_get_absent _ _ _ _ Hn) in E10; subst.
  - now apply (py_get_absent _ _ _ _ Hn) in E8; subst.
  - apply (py_get_absent _ _ _ _ Hn) in E11. subst.
    simpl in E12, E13, E14. inversion E12; inversion E13; inversion E14; subst.
    simpl in E15. inversion E15. repeat split.
  - apply (py_get_absent _ _ _ _ Hn) in E3. subst.
    simpl in E4. now inversion E4.
Qed.

Lemma prices_create_row_defaults_witness :
  exists row,
    GetPrices.create_row "2026-11-04" (VDict []) (VDict []) branded_product
    = Ok row
    /\ field "Product Price" row = Some (VStr "")
    /\ field "Store City" row = Some (VStr "").
Proof.
  eexists. split; [reflexivity|].
  destruct (prices_create_row_defaults "2026-11-04" (VDict []) (VDict [])
              branded_product _ eq_refl) as (H1 & _ & _ & _ & _ & H6 & _).
  split; [apply H1; reflexivity|apply H6; reflexivity].
Defined.

(** X22. In a row of [get_json.py] every nested field is the value at
    the end of its chain of keys, and null as soon as the chain breaks on
    an absent or null step, at any depth: brand, price, store name, store
    city and search term. *)
Theorem json_create_row_fields (date : string)
  (data aisle product row : pyval) :
  GetJson.create_row date data aisle product = Ok row ->
  field "brand" row = Some (reach product ["brand"; "name"])
  /\ field "price" row = Some (reach product ["pricing"; "price"; "amount"])
  /\ field "store_name" row = Some (reach data ["store"; "name"])
  /\ field "store_city" row
     = Some (reach data ["store"; "closest_branch"; "city"])
  /\ field "search_term" row
     = Some (reach data ["search_result"; "search_term"]).
Proof.
  unfold GetJson.create_row. intros H. repeat bind_step H.
  inversion H; subst; clear H.
  apply get_nested_reach in E1, E2, E4, E5, E6. subst.
  repeat split.
Qed.

Lemma json_create_row_fields_witness :
  exists row,
    GetJson.create_row "04-11-2026" scenario_store scenario_aisle
      (VDict [("pricing", VDict [("price", VNone)])]) = Ok row
    /\ field "price" row = Some VNone
    /\ field "store_city" row = Some (VStr "X").
Proof.
  eexists. split; [reflexivity|].
  destruct (json_create_row_fields "04-11-2026" scenario_store scenario_aisle
              (VDict [("pricing", VDict [("price", VNone)])]) _ eq_refl)
    as (_ & H2 & _ & H4 & _).
  split; [exact H2|exact H4].
Defined.

Lemma chain2 v k1 k2 d1 d2 a b x :
  walk v [k1; k2] = Reached x ->
  py_get v k1 d1 = Ok a -> py_get a k2 d2 = Ok b -> b = x.
Proof.
  intros Hw E1 E2.
  apply walk_step in Hw. destruct Hw as (a' & F1 & Hw).
  apply walk_step in Hw. destruct Hw as (b' & F2 & Hw).
  inversion Hw; subst.
  apply (py_get_present _ _ _ _ _ F1) in E1. subst.
  now apply (py_get_present _ _ _ _ _ F2) in E2.
Qed.

Lemma chain3 v k1 k2 k3 d1 d2 d3 a b c x :
  walk v [k1; k2; k3] = Reached x ->
  py_get v k1 d1 = Ok a -> py_get a k2 d2 = Ok b -> py_get b k3 d3 = Ok c ->
  c = x.
Proof.
  intros Hw E1 E2 E3.
  apply walk_step in Hw. destruct Hw as (a' & F1 & Hw).
  apply (py_get_present _ _ _ _ _ F1) in E1. subst.
  now apply (chain2 a' k2 k3 d2 d3 b c x).
Qed.

Lemma reach_Reached v keys x : walk v keys = Reached x -> reach v keys = x.
Proof. unfold reach. now intros ->. Qed.

Lemma json_row_present date data aisle product row :
  GetJson.create_row date data aisle product = Ok row ->
  (forall v, walk product ["pricing"; "price"; "amount"] = Reached v ->
             field "price" row = Some v)
  /\ (forall v, walk product ["brand"; "name"] = Reached v ->
                field "brand" row = Some v)
  /\ (forall v, walk data ["store"; "name"] = Reached v ->
                field "store_name" row = Some v)
  /\ (forall v, walk data ["store"; "closest_branch"; "city"] = Reached v ->
                field "store_city" row = Some v)
  /\ (forall v, walk data ["search_result"; "search_term"] = Reached v ->
                field "search_term" row = Some v)
  /\ (forall v, field "name" product = Some v ->
                field "product_name" row = Some v)
  /\ (forall v, field "package" product = Some v ->
                field "package" row = Some v)
  /\ (forall v, field "aisle_name" aisle = Some v ->
                field "aisle_name" row = Some v).
Proof.
  unfold GetJson.create_row. intros H. repeat bind_step H.
  inversion H; subst; clear H.
  apply get_nested_reach in E1, E2, E4, E5, E6. subst.
  repeat match goal with |- _ /\ _ => split end; intros v Hv;
    try (rewrite (reach_Reached _ _ _ Hv); reflexivity).
  - apply (py_get_present _ _ _ _ _ Hv) in E0. now subst.
  - apply (py_get_present _ _ _ _ _ Hv) in E3. now subst.
  - apply (py_get_present _ _ _ _ _ Hv) in E. now subst.
Qed.

Lemma prices_row_present date data aisle product row :
  GetPrices.create_row date data aisle product = Ok row ->
  (forall v, walk product ["pricing"; "price"; "amount"] = Reached v ->
             field "Product Price" row = Some v)
  /\ (forall v, walk product ["brand"; "name"] = Reached v ->
                field "Brand" row = Some v)
  /\ (forall v, walk data ["store"; "name"] = Reached v ->
                field "Store Name" row = Some v)
  /\ (forall v, walk data ["store"; "closest_branch"; "city"] = Reached v ->
                field "Store City" row = Some v)
  /\ (forall v, walk data ["search_result"; "search_term"] = Reached v ->
                field "Search Term" row = Some v)
  /\ (forall v, field "name" product = Some v ->
                field "Product Name" row = Some v)
  /\ (forall v, field "package" product = Some v ->
                field "Package" row = Some v)
  /\ (forall v, field "aisle_name" aisle = Some v ->
                field "Aisle Name" row = Some v).
Proof.
  unfold GetPrices.create_row. intros H. repeat bind_step H.
  inversion H; subst; clear H.
  repeat match goal with |- _ /\ _ => split end; intros v Hv; simpl; f_equal.
  - exact (chain3 _ _ _ _ _ _ _ _ _ _ _ Hv E E0 E1).
  - exact (chain2 _ _ _ _ _ _ _ _ Hv E5 E6).
  - exact (chain2 _ _ _ _ _ _ _ _ Hv E11 E12).
  - exact (chain3 _ _ _ _ _ _ _ _ _ _ _ Hv E11 E14 E15).
  - exact (chain2 _ _ _ _ _ _ _ _ Hv E3 E4).
  - exact (py_get_present _ _ _ _ _ Hv E9).
  - exact (py_get_present _ _ _ _ _ Hv E2).
  - exact (py_get_present _ _ _ _ _ Hv E8).
Qed.

(** X23. The two scripts read the same values: for one product, aisle
    and store result that both row constructors accept, a price, brand
    name, store name, store city or search term whose chain of keys is
    complete, and a product name, package or aisle name that is present,
    are the same in the row of [get_json.py] and in the row of
    [get_prices.py], under their respective keys. *)
Theorem rows_agree_on_present_values (date date' : string)
  (data aisle product row row' : pyval) :
  GetJson.create_row date data aisle product = Ok row ->
  GetPrices.create_row date' data aisle product = Ok row' ->
  (forall v, walk product ["pricing"; "price"; "amount"] = Reached v ->
             field "price" row = Some v
             /\ field "Product Price" row' = Some v)
  /\ (forall v, walk product ["brand"; "name"] = Reached v ->
                field "brand" row = Some v /\ field "Brand" row' = Some v)
  /\ (forall v, walk data ["store"; "name"] = Reached v ->
                field "store_name" row = Some v
                /\ field "Store Name" row' = Some v)
  /\ (forall v, walk data ["store"; "closest_branch"; "city"] = Reached v ->
                field "store_city" row = Some v
                /\ field "Store City" row' = Some v)
  /\ (forall v, walk data ["search_result"; "search_term"] = Reached v ->
                field "search_term" row = Some v
                /\ field "Search Term" row' = Some v)
  /\ (forall v, field "name" product = Some v ->
                field "product_name" row = Some v
                /\ field "Product Name" row' = Some v)
  /\ (forall v, field "package" product = Some v ->
                field "package" row = Some v /\ field "Package" row' = Some v)
  /\ (forall v, field "aisle_name" aisle = Some v ->
                field "aisle_name" row = Some v
                /\ field "Aisle Name" row' = Some v).
Proof.
  intros Hj Hp.
  destruct (json_row_present _ _ _ _ _ Hj)
    as (J1 & J2 & J3 & J4 & J5 & J6 & J7 & J8).
  destruct (prices_row_present _ _ _ _ _ Hp)
    as (P1 & P2 & P3 & P4 & P5 & P6 & P7 & P8).
  repeat match goal with |- _ /\ _ => split end; intros v Hv; split; auto.
Qed.

Lemma rows_agree_on_present_values_witness :
  exists row row',
    GetJson.create_row "04-11-2026" scenario_store scenario_aisle
      scenario_product = Ok row
    /\ GetPrices.create_row "2026-11-04" scenario_store scenario_aisle
         scenario_product = Ok row'
    /\ field "price" row = Some (VFloat 5.5)
    /\ field "Product Price" row' = Some (VFloat 5.5).
Proof.
  do 2 eexists. split; [reflexivity|]. split; [reflexivity|].
  destruct (rows_agree_on_present_values "04-11-2026" "2026-11-04"
              scenario_store scenario_aisle scenario_product _ _
              eq_refl eq_refl) as (H1 & _).
  apply H1. reflexivity.
Defined.

(** ** All or nothing *)

Lemma mapM_fails {A B : Type} (f : A -> result B) (l : list A) (x : A) :
  In x l -> is_ok (f x) = false -> is_ok (mapM f l) = false.
Proof.
  induction l as [|y l IH]; simpl; [tauto|]. intros [->|Hin] Hx.
  - destruct (f x); [discriminate Hx|reflexivity].
  - destruct (f y); [|reflexivity]. simpl.
    specialize (IH Hin Hx). now destruct (mapM f l).
Qed.

(** X24. The flatteners return all the rows or none: when the rows of
    one store result cannot be built, wherever it stands in the list,
    [create_data] and [create_dataframe] raise and return no row of the
    other stores. *)
Theorem flatten_all_or_nothing (date : string) (stores : list pyval)
  (data : pyval) :
  In data stores ->
  (is_ok (GetJson.rows_of_store date data) = false ->
   is_ok (GetJson.create_data date (VList stores)) = false)
  /\ (is_ok (GetPrices.rows_of_store date data) = false ->
      is_ok (GetPrices.create_dataframe date (VList stores)) = false).
Proof.
  intros Hin. unfold GetJson.create_data, GetPrices.create_dataframe; simpl.
  split; intros H; now apply (concat_mapM_fails _ _ data Hin).
Qed.

Lemma flatten_all_or_nothing_witness :
  is_ok (GetJson.create_data "04-11-2026"
           (VList [scenario_store; store_without_aisles; scenario_store]))
  = false.
Proof.
  refine (proj1 (flatten_all_or_nothing "04-11-2026"
                   [scenario_store; store_without_aisles; scenario_store]
                   store_without_aisles _) _).
  - simpl. auto.
  - reflexivity.
Defined.

Lemma prices_rows_of_aisle_needs_brand date data aisle product :
  In product (products_of aisle) -> field "brand" product = None ->
  is_ok (GetPrices.rows_of_aisle date data aisle) = false.
Proof.
  unfold products_of, GetPrices.rows_of_aisle. intros Hin Hb.
  destruct aisle; simpl in Hin; try contradiction. simpl.
  destruct (dict_lookup "products" entries) as [v|]; [|contradiction].
  destruct v; try contradiction. simpl.
  apply (mapM_fails _ _ product Hin).
  now apply prices_create_row_needs_brand.
Qed.

Lemma prices_rows_of_store_needs_brand date data aisle product :
  In aisle (aisles_of data) -> In product (products_of aisle) ->
  field "brand" product = None ->
  is_ok (GetPrices.rows_of_store date data) = false.
Proof.
  unfold aisles_of, GetPrices.rows_of_store. intros Ha Hp Hb.
  destruct data; simpl in Ha; try contradiction. simpl.
  destruct (dict_lookup "search_result" entries) as [sr|]; [|contradiction].
  destruct sr; simpl in Ha; try contradiction. simpl.
  destruct (dict_lookup "aisles" entries0) as [v|]; [|contradiction].
  destruct v; try contradiction. simpl.
  apply (concat_mapM_fails _ _ aisle Ha).
  now apply (prices_rows_of_aisle_needs_brand _ _ _ product).
Qed.

(** X25. [create_dataframe] of [get_prices.py] returns no frame as soon
    as one product of one aisle of one store has no [brand] key: the
    lookup of the brand defaults to a list, and the whole flattening
    raises. *)
Theorem create_dataframe_needs_brand (date : string) (stores : list pyval)
  (data aisle product : pyval) :
  In data stores -> In aisle (aisles_of data) ->
  In product (products_of aisle) ->
  field "brand" product = None ->
  is_ok (GetPrices.create_dataframe date (VList stores)) = false.
Proof.
  intros Hd Ha Hp Hb. unfold GetPrices.create_dataframe; simpl.
  apply (concat_mapM_fails _ _ data Hd).
  now apply (prices_rows_of_store_needs_brand _ _ aisle product).
Qed.

Lemma create_dataframe_needs_brand_witness :
  is_ok (GetPrices.create_dataframe "2026-11-04"
           (VList [scenario_store;
                   VDict [("search_result",
                           VDict [("aisles",
                                   VList [VDict [("products",
                                                  VList [bare_product])]])])]]))
  = false.
Proof.
  eapply (create_dataframe_needs_brand _ _ _ _ bare_product).
  - right. left. reflexivity.
  - left. reflexivity.
  - left. reflexivity.
  - reflexivity.
Defined.
